(** * Trainer (src/train.py): epoch loop and checkpoint life cycle

    A shallow embedding of the [Trainer] class.  The object [self] is a
    record that is threaded through every method together with the file
    system; a method either returns or raises, and in both cases the
    attribute assignments and the output made so far are kept, as in
    Python.  Printed lines, checkpoint writes and logger calls are emitted
    as a list of events.

    The learning framework (model forward/backward pass, optimizer step,
    prediction) is outside the repository: it is an interface
    ([Framework]) the trainer is parametric in.  A Python float is
    embedded as the rational number it stands for ([Qc]); the rounding of
    double-precision arithmetic is a function [fl] of the interface, of
    which only monotonicity and exactness on the integers up to 2^53 are
    assumed. *)

From Stdlib Require Import ZArith QArith Qcanon String Ascii List Lia Sorted.
From stdpp Require Import base tactics option numbers list list_numbers
  strings pretty gmap fin_maps fin_map_dom.

Local Open Scope Z_scope.
Local Open Scope string_scope.

(** ** Python values the trainer handles *)

Definition float := Qc.

(** [a > b] on floats. *)
Definition float_gt (a b : float) : bool :=
  match (a ?= b)%Qc with
  | Gt => true
  | _ => false
  end.

(** Python's [max(a, b)]: the first argument unless the second is
    strictly greater. *)
Definition py_max (a b : float) : float :=
  if float_gt b a then b else a.

(** Truth value of a string: non-empty. *)
Definition truthy (s : string) : bool :=
  match s with
  | EmptyString => false
  | String _ _ => true
  end.

(** [str(epoch)] for an integer. *)
Definition str (n : Z) : string := pretty n.

(** A character that is not a decimal digit. *)
Definition not_digit (c : ascii) : Prop := forall n, pretty_N_char n <> c.

(** [range(lo, hi)]. *)
Definition range (lo hi : Z) : list Z := seqZ lo (hi - lo).

Inductive exn :=
| ZeroDivisionError
| FileNotFoundError (path : string)
| IsADirectoryError (path : string)
| FileExistsError (path : string)
| NotADirectoryError (path : string)
| RuntimeError_load_state_dict.

(** ** os.path *)

Definition startswith_sep (s : string) : bool :=
  match s with
  | String c _ => bool_decide (c = "/"%char)
  | EmptyString => false
  end.

Fixpoint endswith_sep (s : string) : bool :=
  match s with
  | EmptyString => false
  | String c EmptyString => bool_decide (c = "/"%char)
  | String _ rest => endswith_sep rest
  end.

(** [os.path.join(a, b)] (posixpath, two components). *)
Definition os_path_join (a b : string) : string :=
  if startswith_sep b then b
  else if negb (truthy a) || endswith_sep a then a +:+ b
  else a +:+ "/" +:+ b.

(** [p[:p.rfind("/") + 1]]: the text of [p] up to its last separator. *)
Fixpoint has_sep (s : string) : bool :=
  match s with
  | EmptyString => false
  | String c rest => bool_decide (c = "/"%char) || has_sep rest
  end.

Fixpoint upto_last_sep (s : string) : string :=
  match s with
  | EmptyString => EmptyString
  | String c rest =>
      if has_sep s then String c (upto_last_sep rest) else EmptyString
  end.

(** [s.rstrip("/")]. *)
Fixpoint rstrip_sep (s : string) : string :=
  match s with
  | EmptyString => EmptyString
  | String c rest =>
      match rstrip_sep rest with
      | EmptyString =>
          if bool_decide (c = "/"%char) then EmptyString
          else String c EmptyString
      | r => String c r
      end
  end.

(** [os.path.dirname(p)] (posixpath): the head up to the last separator,
    without its trailing separators unless it consists of separators
    only. *)
Definition os_path_dirname (p : string) : string :=
  let head := upto_last_sep p in
  if truthy (rstrip_sep head) then rstrip_sep head else head.

(** ** Configuration, optimizer, scheduler *)

(** [config]: the hyperparameters the trainer reads. *)
Record Config := {
  LR : float;
  MOMENTUM : float;
  WEIGHT_DECAY : float;
  WARMUP_EPOCHS : Z;
  EPOCHS : Z;
  START_LR : float;
  STORE_PARAM_BEFORE : Z;
  PRUNE_START_FROM : Z
}.

(** The single parameter group of [optim.SGD(model.parameters(), ...)]. *)
Record ParamGroup := {
  lr : float;
  momentum : float;
  weight_decay : float
}.

(** An optimizer: its parameter group and its per-parameter buffers. *)
Record Optimizer (OptState : Type) := {
  param_groups : ParamGroup;
  state : OptState
}.
Arguments param_groups {OptState} _.
Arguments state {OptState} _.

(** [WarmupCosineLR(warmup_epochs, epochs, start_lr, target_lr)]. *)
Record WarmupCosineLR := {
  warmup_epochs : Z;
  epochs : Z;
  start_lr : float;
  target_lr : float
}.

(** Values stored in a state dict ([Dict[str, Any]]): tensors for a model,
    the two entries of [optimizer.state_dict()] for an optimizer. *)
Inductive pyvalue (Tensor OptState : Type) :=
| PyTensor (x : Tensor)
| PyOptState (s : OptState)
| PyParamGroups (g : list ParamGroup).
Arguments PyTensor {Tensor OptState} _.
Arguments PyOptState {Tensor OptState} _.
Arguments PyParamGroups {Tensor OptState} _.

(** ** The platform the trainer runs on *)

(** The learning framework the trainer calls into, and the arithmetic of
    Python floats. *)
Class Framework := {
  Tensor : Type;
  OptState : Type;
  Batch : Type;
  (** buffers of a freshly constructed SGD optimizer *)
  sgd_fresh_state : OptState;
  (** one training batch: zero_grad, forward, criterion, backward,
      optimizer.step; gives the new model state, the new optimizer
      buffers and [loss.item()] *)
  train_batch :
    gmap string Tensor -> Optimizer OptState -> Batch ->
    gmap string Tensor * OptState * float;
  (** [labels.size(0)] *)
  labels_size : Batch -> N;
  (** [(predicted == labels).sum().item()] for the model's outputs *)
  num_correct : gmap string Tensor -> Batch -> N;
  (** the learning rate the scheduler computes for an epoch *)
  scheduled_lr : WarmupCosineLR -> Z -> float;
  (** [fl x]: the double nearest to the real number [x].  Rounding is
      monotone, and exact on the integers up to 2^53.  Overflow is not
      represented. *)
  fl : Qc -> float;
  fl_mono : forall x y : Qc, (x <= y)%Qc -> (fl x <= fl y)%Qc;
  fl_int : forall z : Z, (Z.abs z <= 2 ^ 53)%Z -> fl (Qc_of_Z z) = Qc_of_Z z;
  (** [sum(xs)] on a list of floats *)
  float_sum : list float -> float
}.

Section Trainer.

Context `{FW : Framework}.

Local Abbreviation value := (pyvalue Tensor OptState).

(** [optimizer.state_dict()]. *)
Definition optimizer_state_dict (o : Optimizer OptState) : gmap string value :=
  <["state" := PyOptState (state o)]>
    (<["param_groups" := PyParamGroups [param_groups o]]> ∅).

(** [optim.SGD(params, lr=..., momentum=..., weight_decay=...)]. *)
Definition SGD (lr0 momentum0 weight_decay0 : float) : Optimizer OptState :=
  {| param_groups := {| lr := lr0; momentum := momentum0;
                        weight_decay := weight_decay0 |};
     state := sgd_fresh_state |}.

(** [float(n)] for an integer, and the product and quotient of two
    floats. *)
Definition float_of_int (n : Z) : float := fl (Qc_of_Z n).

Definition float_mul (a b : float) : float := fl (a * b)%Qc.

Definition float_div (a b : float) : float := fl (a / b)%Qc.

(** An [nn.Module]: its state dict, of tensors, and its train/eval
    mode. *)
Record Model := {
  model_state_dict : gmap string Tensor;
  training : bool
}.

(** The record [save_params] persists: the model's state dict, the
    optimizer's state dict, the epoch and the test accuracy. *)
Record Checkpoint := {
  ck_state_dict : gmap string Tensor;
  ck_optimizer : gmap string value;
  ck_epoch : Z;
  ck_test_acc : float
}.

(** ** File system and output *)

Inductive node :=
| Dir
| File (ck : Checkpoint).

(** Lines the trainer prints. *)
Inductive message :=
| MsgEpoch (epoch last : Z) (rate : float)
| MsgTestAccuracy (test_acc : float)
| MsgStoredInitialWeights
| MsgSavedModel (model_path filename : string)
| MsgLoadedParameters (model_path : string).

Inductive event :=
| Print (m : message)
| SaveCheckpoint (path filename : string) (ck : Checkpoint)
| WandbInit
| WlogPrunedWeight
| WandbLog (log_data : gmap string float).

(** ** The trainer object *)

Record Trainer := {
  model : Model;
  trainloader : list Batch;
  testloader : list Batch;
  config : Config;
  wandb_log : bool;
  init_params_path : string;
  dir_prefix : string;
  model_dir : string;
  start_epoch : Z;
  best_acc : float;
  optimizer : Optimizer OptState;
  lr_scheduler : WarmupCosineLR;
  best_model_path : string
}.

(** Attribute assignment. *)
Definition set_model (t : Trainer) (m : Model) : Trainer :=
  {| model := m; trainloader := trainloader t; testloader := testloader t;
     config := config t; wandb_log := wandb_log t;
     init_params_path := init_params_path t; dir_prefix := dir_prefix t;
     model_dir := model_dir t; start_epoch := start_epoch t;
     best_acc := best_acc t; optimizer := optimizer t;
     lr_scheduler := lr_scheduler t; best_model_path := best_model_path t |}.

Definition set_init_params_path (t : Trainer) (p : string) : Trainer :=
  {| model := model t; trainloader := trainloader t; testloader := testloader t;
     config := config t; wandb_log := wandb_log t;
     init_params_path := p; dir_prefix := dir_prefix t;
     model_dir := model_dir t; start_epoch := start_epoch t;
     best_acc := best_acc t; optimizer := optimizer t;
     lr_scheduler := lr_scheduler t; best_model_path := best_model_path t |}.

Definition set_start_epoch (t : Trainer) (e : Z) : Trainer :=
  {| model := model t; trainloader := trainloader t; testloader := testloader t;
     config := config t; wandb_log := wandb_log t;
     init_params_path := init_params_path t; dir_prefix := dir_prefix t;
     model_dir := model_dir t; start_epoch := e;
     best_acc := best_acc t; optimizer := optimizer t;
     lr_scheduler := lr_scheduler t; best_model_path := best_model_path t |}.

Definition set_best_acc (t : Trainer) (a : float) : Trainer :=
  {| model := model t; trainloader := trainloader t; testloader := testloader t;
     config := config t; wandb_log := wandb_log t;
     init_params_path := init_params_path t; dir_prefix := dir_prefix t;
     model_dir := model_dir t; start_epoch := start_epoch t;
     best_acc := a; optimizer := optimizer t;
     lr_scheduler := lr_scheduler t; best_model_path := best_model_path t |}.

Definition set_optimizer (t : Trainer) (o : Optimizer OptState) : Trainer :=
  {| model := model t; trainloader := trainloader t; testloader := testloader t;
     config := config t; wandb_log := wandb_log t;
     init_params_path := init_params_path t; dir_prefix := dir_prefix t;
     model_dir := model_dir t; start_epoch := start_epoch t;
     best_acc := best_acc t; optimizer := o;
     lr_scheduler := lr_scheduler t; best_model_path := best_model_path t |}.

Definition set_best_model_path (t : Trainer) (p : string) : Trainer :=
  {| model := model t; trainloader := trainloader t; testloader := testloader t;
     config := config t; wandb_log := wandb_log t;
     init_params_path := init_params_path t; dir_prefix := dir_prefix t;
     model_dir := model_dir t; start_epoch := start_epoch t;
     best_acc := best_acc t; optimizer := optimizer t;
     lr_scheduler := lr_scheduler t; best_model_path := p |}.

(** The first argument of [initialize_params] ([model: Any]). *)
Inductive pyobject :=
| ObjModel (m : Model)
| ObjOptimizer (o : Optimizer OptState).

(** ** Methods as state transformers that may raise *)

Record Res (A : Type) := mkRes {
  outcome : exn + A;
  self' : Trainer;
  fs' : gmap string node;
  emitted : list event
}.
Arguments mkRes {A} _ _ _ _.
Arguments outcome {A} _.
Arguments self' {A} _.
Arguments fs' {A} _.
Arguments emitted {A} _.

Definition M (A : Type) : Type := Trainer -> gmap string node -> Res A.

Definition ret {A} (a : A) : M A :=
  fun self fs => mkRes (inr a) self fs [].

Definition raise {A} (e : exn) : M A :=
  fun self fs => mkRes (inl e) self fs [].

(** The result [r] of a continuation, after [evs] was already emitted. *)
Definition after {A} (evs : list event) (r : Res A) : Res A :=
  match r with
  | mkRes o self fs evs2 => mkRes o self fs (evs ++ evs2)
  end.

(** Sequencing: an exception ends the computation and keeps the object,
    the file system and the output as they are when it is raised. *)
Definition bind {A B} (m : M A) (k : A -> M B) : M B :=
  fun self fs =>
    match m self fs with
    | mkRes (inl e) self1 fs1 evs => mkRes (inl e) self1 fs1 evs
    | mkRes (inr a) self1 fs1 evs => after evs (k a self1 fs1)
    end.

Definition get_self : M Trainer :=
  fun self fs => mkRes (inr self) self fs [].

Definition get_fs : M (gmap string node) :=
  fun self fs => mkRes (inr fs) self fs [].

Definition set_self (f : Trainer -> Trainer) : M unit :=
  fun self fs => mkRes (inr tt) (f self) fs [].

Definition emit (e : event) : M unit :=
  fun self fs => mkRes (inr tt) self fs [e].

Definition when (b : bool) (m : M unit) : M unit :=
  if b then m else ret tt.

#[local] Instance M_ret : MRet M := @ret.
#[local] Instance M_bind : MBind M := fun A B k m => bind m k.

(** ** Collaborators of the trainer *)

(** Modelled from the spec: [utils.save_checkpoint(state, path, filename)]
    is not among the sources; the spec has it serialize the record to
    [path/filename]. *)
Definition save_checkpoint (ck : Checkpoint) (path filename : string) : M unit :=
  fun self fs =>
    mkRes (inr tt) self (<[os_path_join path filename := File ck]> fs)
          [SaveCheckpoint path filename ck].

(** [torch.load(path)]: the checkpoint stored in the file at [path]. *)
Definition torch_load (path : string) : M Checkpoint :=
  fun self fs =>
    match fs !! path with
    | Some (File ck) => mkRes (inr ck) self fs []
    | Some Dir => mkRes (inl (IsADirectoryError path)) self fs []
    | None => mkRes (inl (FileNotFoundError path)) self fs []
    end.

(** [os.path.exists(path)]. *)
Definition os_path_exists (fs : gmap string node) (path : string) : bool :=
  bool_decide (is_Some (fs !! path)).

(** Why [os.mkdir(path)] fails on [fs], if it does.  The file system is
    a flat map from path strings to nodes: a path is found under the
    spelling it was stored with, and the directory a new entry goes into
    is the [os.path.dirname] of the path without its trailing
    separators; a relative name without separator goes into the working
    directory and a name under the root into the root, which both exist.
    Permissions and device errors are not represented. *)
Definition mkdir_error (fs : gmap string node) (path : string) : option exn :=
  if os_path_exists fs path then Some (FileExistsError path)
  else if negb (truthy path) then Some (FileNotFoundError path)
  else
    let parent := os_path_dirname (rstrip_sep path) in
    if negb (truthy (rstrip_sep parent)) then None
    else
      match fs !! parent with
      | Some Dir => None
      | Some (File _) => Some (NotADirectoryError path)
      | None => Some (FileNotFoundError path)
      end.

(** [os.mkdir(path)]. *)
Definition os_mkdir (path : string) : M unit :=
  fun self fs =>
    match mkdir_error fs path with
    | Some e => mkRes (inl e) self fs []
    | None => mkRes (inr tt) self (<[path := Dir]> fs) []
    end.

(** [torch.overrides.is_tensor_like(v)] on the values of a state dict. *)
Definition is_tensor (v : value) : bool :=
  match v with
  | PyTensor _ => true
  | _ => false
  end.

(** Every entry of [d] under a key of [own] is a tensor. *)
Definition loadable (d : gmap string value) (own : gmap string Tensor)
    : bool :=
  forallb (fun kv => match own !! kv.1 with
                     | Some _ => is_tensor kv.2
                     | None => true
                     end) (map_to_list d).

(** The parameters [own] after every one of them whose entry in [d] is a
    tensor was copied from [d]. *)
Definition copy_tensors (d : gmap string value) (own : gmap string Tensor)
    : gmap string Tensor :=
  map_imap (fun k t => Some match d !! k with
                            | Some (PyTensor x) => x
                            | _ => t
                            end) own.

(** [model.load_state_dict(d)] with torch's default [strict=True].  Each
    parameter of the model whose entry in [d] is a tensor is copied from
    it; an entry that is not a tensor is reported and skipped.  When an
    entry was reported, or a key of the model is missing from [d], or a
    key of [d] is not one of the model, the call raises [RuntimeError]
    after the copies were made.  Tensor shapes are not represented. *)
Definition load_state_dict (d : gmap string value) : M unit :=
  fun self fs =>
    let own := model_state_dict (model self) in
    let self1 :=
      set_model self {| model_state_dict := copy_tensors d own;
                        training := training (model self) |} in
    if bool_decide (dom d = dom own) && loadable d own
    then mkRes (inr tt) self1 fs []
    else mkRes (inl RuntimeError_load_state_dict) self1 fs [].

(** Modelled from the spec: [WarmupCosineLR.__call__(optimizer, epoch)]
    (src.lr_schedulers is not among the sources) computes the learning
    rate of the epoch and sets it on the optimizer. *)
Definition lr_scheduler_call (epoch : Z) : M unit :=
  set_self (fun self =>
    set_optimizer self
      {| param_groups :=
           {| lr := scheduled_lr (lr_scheduler self) epoch;
              momentum := momentum (param_groups (optimizer self));
              weight_decay := weight_decay (param_groups (optimizer self)) |};
         state := state (optimizer self) |}).

(** ** Methods of [Trainer] *)

(** [initialize_params(self, model, state_dict)].  The body reads and
    writes [self.model]; its argument [model] is not used. *)
Definition initialize_params (model_arg : pyobject)
    (state_dict : gmap string value) : M unit :=
  self ← get_self;
  let model_dict : gmap string value :=
    PyTensor <$> model_state_dict (model self) in
  (* 1. filter out unnecessary keys *)
  let pretrained_dict :=
    filter (fun kv => kv.1 ∈ dom model_dict) state_dict in
  (* 2. overwrite entries in the existing state dict *)
  let model_dict := pretrained_dict ∪ model_dict in
  (* 3. load the new state dict *)
  load_state_dict model_dict.

Definition load_params (model_path : string) : M unit :=
  checkpt ← torch_load model_path;
  self ← get_self;
  initialize_params (ObjModel (model self))
    (PyTensor <$> ck_state_dict checkpt);;
  self ← get_self;
  initialize_params (ObjOptimizer (optimizer self)) (ck_optimizer checkpt);;
  set_self (fun self => set_start_epoch self (ck_epoch checkpt + 1));;
  emit (Print (MsgLoadedParameters model_path)).

Definition load_init_params (path : string) : M unit :=
  load_params path;;
  set_self (fun self =>
    set_start_epoch self (PRUNE_START_FROM (config self))).

Definition save_params (model_path filename : string) (epoch : Z)
    (test_acc : float) : M unit :=
  self ← get_self;
  save_checkpoint
    {| ck_state_dict := model_state_dict (model self);
       ck_optimizer := optimizer_state_dict (optimizer self);
       ck_epoch := epoch;
       ck_test_acc := test_acc |}
    model_path (filename +:+ ".pth.tar");;
  emit (Print (MsgSavedModel model_path filename)).

Definition save_init_params : M unit :=
  let filename := "init_weight" in
  emit (Print MsgStoredInitialWeights);;
  self ← get_self;
  save_params (dir_prefix self) filename
    (STORE_PARAM_BEFORE (config self) - 1) (Q2Qc 0);;
  set_self (fun self =>
    set_init_params_path self
      (os_path_join (dir_prefix self) (filename +:+ ".pth.tar"))).

Definition save_best_params (test_acc : float) (epoch : Z) : M unit :=
  self ← get_self;
  let is_best := float_gt test_acc (best_acc self) in
  set_self (fun self => set_best_acc self (py_max test_acc (best_acc self)));;
  self ← get_self;
  when is_best
    (save_params (best_model_path self) (str epoch) epoch test_acc).

(** The batch loop of [train_one_epoch]. *)
Fixpoint train_batches (batches : list Batch) (losses : list float)
    : M (list float) :=
  match batches with
  | [] => ret losses
  | data :: rest =>
      self ← get_self;
      let '(params, buffers, loss) :=
        train_batch (model_state_dict (model self)) (optimizer self) data in
      set_self (fun self =>
        set_optimizer
          (set_model self {| model_state_dict := params;
                             training := training (model self) |})
          {| param_groups := param_groups (optimizer self);
             state := buffers |});;
      train_batches rest (losses ++ [loss])
  end.

Definition train_one_epoch : M float :=
  let losses := [] in
  (* self.model.train() *)
  set_self (fun self =>
    set_model self {| model_state_dict := model_state_dict (model self);
                      training := true |});;
  self ← get_self;
  losses ← train_batches (trainloader self) losses;
  if decide (length losses = 0%nat) then raise ZeroDivisionError
  else ret (float_div (float_sum losses)
              (float_of_int (Z.of_nat (length losses)))).

(** The batch loop of [test_one_epoch], on the counters
    [(correct, total)]. *)
Fixpoint test_batches (params : gmap string Tensor) (batches : list Batch)
    (correct total : N) : N * N :=
  match batches with
  | [] => (correct, total)
  | data :: rest =>
      let total := (total + labels_size data)%N in
      let correct := (correct + num_correct params data)%N in
      test_batches params rest correct total
  end.

Definition test_one_epoch : M float :=
  (* self.model.eval() *)
  set_self (fun self =>
    set_model self {| model_state_dict := model_state_dict (model self);
                      training := false |});;
  self ← get_self;
  let '(correct, total) :=
    test_batches (model_state_dict (model self)) (testloader self) 0%N 0%N in
  if decide (total = 0%N) then raise ZeroDivisionError
  else ret (float_div (float_mul (Q2Qc 100) (float_of_int (Z.of_N correct)))
              (float_of_int (Z.of_N total))).

(** One iteration of the epoch loop of [run]; gives the updated
    [log_data]. *)
Definition run_epoch (epoch : Z) (log_data : gmap string float)
    : M (gmap string float) :=
  lr_scheduler_call epoch;;
  self ← get_self;
  let rate := lr (param_groups (optimizer self)) in
  emit (Print (MsgEpoch epoch (EPOCHS (config self) - 1) rate));;
  (* train *)
  train_loss ← train_one_epoch;
  (* test *)
  test_acc ← test_one_epoch;
  emit (Print (MsgTestAccuracy test_acc));;
  (* save model *)
  save_best_params test_acc epoch;;
  (* store initial weights *)
  self ← get_self;
  when (negb (truthy (init_params_path self))
        && bool_decide (STORE_PARAM_BEFORE (config self) - 1 = epoch))
    save_init_params;;
  (* logging *)
  self ← get_self;
  if wandb_log self then
    let log_data :=
      <["lr" := rate]> (<["loss" := train_loss]> (<["acc" := test_acc]> log_data)) in
    emit WlogPrunedWeight;;
    emit (WandbLog log_data);;
    mret log_data
  else mret log_data.

Fixpoint run_epochs (epochs : list Z) (log_data : gmap string float)
    : M unit :=
  match epochs with
  | [] => mret tt
  | epoch :: rest =>
      log_data ← run_epoch epoch log_data;
      run_epochs rest log_data
  end.

Definition run (log_data : gmap string float) : M unit :=
  self ← get_self;
  when (negb (truthy (init_params_path self))
        && bool_decide (STORE_PARAM_BEFORE (config self) = 0))
    save_init_params;;
  self ← get_self;
  run_epochs (range (start_epoch self) (EPOCHS (config self))) log_data.

Definition reset (dir_prefix0 model_dir0 : string) : M unit :=
  set_self (fun self =>
    {| model := model self; trainloader := trainloader self;
       testloader := testloader self; config := config self;
       wandb_log := wandb_log self;
       init_params_path := init_params_path self;
       dir_prefix := dir_prefix0;
       model_dir := model_dir0;
       start_epoch := 0;
       best_acc := Q2Qc 0;
       (* define criterion and optimizer *)
       optimizer := SGD (LR (config self)) (MOMENTUM (config self))
                        (WEIGHT_DECAY (config self));
       (* learning rate scheduler *)
       lr_scheduler :=
         {| warmup_epochs := WARMUP_EPOCHS (config self);
            epochs := EPOCHS (config self);
            start_lr := START_LR (config self);
            target_lr := LR (config self) |};
       best_model_path := best_model_path self |});;
  (* initialize training *)
  self ← get_self;
  when (truthy (init_params_path self))
    (load_init_params (init_params_path self));;
  (* best model path *)
  set_self (fun self =>
    set_best_model_path self (os_path_join dir_prefix0 model_dir0));;
  self ← get_self;
  fs ← get_fs;
  when (negb (os_path_exists fs (best_model_path self)))
    (os_mkdir (best_model_path self)).

(** [Trainer(model, trainloader, testloader, config, dir_prefix,
    model_dir, device, wandb_log, wandb_init_params)]: the attributes
    [reset] assigns are unset before it runs; they are given placeholders
    that [reset] overwrites. *)
Definition init (model0 : Model) (trainloader0 testloader0 : list Batch)
    (config0 : Config) (dir_prefix0 model_dir0 : string) (wandb_log0 : bool)
    (fs : gmap string node) : Res unit :=
  (reset dir_prefix0 model_dir0;;
   (* create logger *)
   when wandb_log0 (emit WandbInit))
    {| model := model0; trainloader := trainloader0;
       testloader := testloader0; config := config0;
       wandb_log := wandb_log0;
       init_params_path := "";
       dir_prefix := ""; model_dir := ""; start_epoch := 0;
       best_acc := Q2Qc 0;
       optimizer := SGD (LR config0) (MOMENTUM config0) (WEIGHT_DECAY config0);
       lr_scheduler := {| warmup_epochs := 0; epochs := 0;
                          start_lr := Q2Qc 0; target_lr := Q2Qc 0 |};
       best_model_path := "" |} fs.

(** ** What a run leaves behind: observations on the emitted events *)

Definition init_weight_file : string := "init_weight.pth.tar".

(** Writes of the "init weights" checkpoint. *)
Definition is_init_write (e : event) : bool :=
  match e with
  | SaveCheckpoint _ filename _ => bool_decide (filename = init_weight_file)
  | _ => false
  end.

Definition init_writes (evs : list event) : nat :=
  length (List.filter is_init_write evs).

(** All checkpoint writes, as (directory, file name, record). *)
Definition checkpoint_writes (evs : list event)
    : list (string * string * Checkpoint) :=
  omap (fun e => match e with
                 | SaveCheckpoint path filename ck => Some (path, filename, ck)
                 | _ => None
                 end) evs.

(** The epochs whose body was entered. *)
Definition epochs_started (evs : list event) : list Z :=
  omap (fun e => match e with
                 | Print (MsgEpoch epoch _ _) => Some epoch
                 | _ => None
                 end) evs.

(** The test accuracies the epochs reported. *)
Definition observed_accs (evs : list event) : list float :=
  omap (fun e => match e with
                 | Print (MsgTestAccuracy a) => Some a
                 | _ => None
                 end) evs.

(** Epoch starts, test-accuracy reports (an epoch is trained and tested
    by then) and init-weights writes, in the order they happen. *)
Inductive mark :=
| EpochStart (epoch : Z)
| EpochTested
| InitWrite.

Definition mark_of (e : event) : option mark :=
  match e with
  | Print (MsgEpoch epoch _ _) => Some (EpochStart epoch)
  | Print (MsgTestAccuracy _) => Some EpochTested
  | SaveCheckpoint _ filename _ =>
      if bool_decide (filename = init_weight_file) then Some InitWrite else None
  | _ => None
  end.

Definition timeline (evs : list event) : list mark := omap mark_of evs.

(** The marks of epochs that are entered and tested, none storing. *)
Fixpoint epoch_marks (eps : list Z) : list mark :=
  match eps with
  | [] => []
  | e :: rest => EpochStart e :: EpochTested :: epoch_marks rest
  end.

(** The timeline of a run whose epoch loop goes through [eps] to the end:
    the init weights are written once epoch [spb - 1] is tested, unless a
    path is already recorded ([stored]). *)
Fixpoint expected_timeline (stored : bool) (spb : Z) (eps : list Z)
    : list mark :=
  match eps with
  | [] => []
  | e :: rest =>
      EpochStart e :: EpochTested ::
        (if negb stored && bool_decide (spb - 1 = e)
         then InitWrite :: expected_timeline true spb rest
         else expected_timeline stored spb rest)
  end.

(** The best accuracy after the accuracies [accs] were reported in turn. *)
Definition best_after (best : float) (accs : list float) : float :=
  fold_left (fun b a => py_max a b) accs best.

(** The object after the assignments [reset] makes before it loads the
    init params. *)
Definition reset_start (dir_prefix0 model_dir0 : string) (self : Trainer)
    : Trainer :=
  {| model := model self; trainloader := trainloader self;
     testloader := testloader self; config := config self;
     wandb_log := wandb_log self;
     init_params_path := init_params_path self;
     dir_prefix := dir_prefix0; model_dir := model_dir0;
     start_epoch := 0; best_acc := Q2Qc 0;
     optimizer := SGD (LR (config self)) (MOMENTUM (config self))
                      (WEIGHT_DECAY (config self));
     lr_scheduler :=
       {| warmup_epochs := WARMUP_EPOCHS (config self);
          epochs := EPOCHS (config self);
          start_lr := START_LR (config self);
          target_lr := LR (config self) |};
     best_model_path := best_model_path self |}.

(** The model after the two calls of [initialize_params] that
    [load_params] makes on the checkpoint [ck]. *)
Definition loaded_model (self : Trainer) (ck : Checkpoint) : Model :=
  {| model_state_dict :=
       copy_tensors (ck_optimizer ck)
         (copy_tensors (PyTensor <$> ck_state_dict ck)
            (model_state_dict (model self)));
     training := training (model self) |}.

(** The object [load_params] leaves when it returns from loading [ck]. *)
Definition loaded (self : Trainer) (ck : Checkpoint) : Trainer :=
  set_start_epoch (set_model self (loaded_model self ck)) (ck_epoch ck + 1).

(** The condition under which an epoch of [run] ends by storing the
    initial weights. *)
Definition stores_init (self : Trainer) (e : Z) : bool :=
  negb (truthy (init_params_path self))
  && bool_decide (STORE_PARAM_BEFORE (config self) - 1 = e).

(** Normal completion. *)
Definition is_ok {A} (r : Res A) : bool :=
  match outcome r with
  | inr _ => true
  | inl _ => false
  end.

(** The attributes the epoch loop never assigns. *)
Definition same_setup (self self1 : Trainer) : Prop :=
  trainloader self1 = trainloader self
  /\ testloader self1 = testloader self
  /\ config self1 = config self
  /\ wandb_log self1 = wandb_log self
  /\ dir_prefix self1 = dir_prefix self
  /\ model_dir self1 = model_dir self
  /\ start_epoch self1 = start_epoch self
  /\ lr_scheduler self1 = lr_scheduler self
  /\ best_model_path self1 = best_model_path self.

Definition nonneg (a : float) : Prop := (Q2Qc 0 <= a)%Qc.

Definition is_init_mark (m : mark) : bool :=
  match m with
  | InitWrite => true
  | _ => false
  end.

(** Every init-weights snapshot of [fs] is in [fs1], unchanged. *)
Definition keeps_snapshots (fs fs1 : gmap string node) : Prop :=
  forall d ck,
    fs !! os_path_join d init_weight_file = Some (File ck) ->
    fs1 !! os_path_join d init_weight_file = Some (File ck).

(** Method calls a user of the trainer makes one after the other: the
    methods that drive training and restore state. *)
Inductive call :=
| CallReset (dir_prefix0 model_dir0 : string)
| CallRun (log_data : gmap string float)
| CallLoadParams (model_path : string)
| CallLoadInitParams (path : string)
| CallSaveBestParams (test_acc : float) (epoch : Z)
| CallTrainOneEpoch
| CallTestOneEpoch.

(** The object and the file system after a call, whether it returned or
    raised (a caller may catch the exception and go on). *)
Definition do_call (c : call) (st : Trainer * gmap string node)
    : Trainer * gmap string node :=
  let '(self, fs) := st in
  match c with
  | CallReset d m => let r := reset d m self fs in (self' r, fs' r)
  | CallRun l => let r := run l self fs in (self' r, fs' r)
  | CallLoadParams p => let r := load_params p self fs in (self' r, fs' r)
  | CallLoadInitParams p =>
      let r := load_init_params p self fs in (self' r, fs' r)
  | CallSaveBestParams a e =>
      let r := save_best_params a e self fs in (self' r, fs' r)
  | CallTrainOneEpoch => let r := train_one_epoch self fs in (self' r, fs' r)
  | CallTestOneEpoch => let r := test_one_epoch self fs in (self' r, fs' r)
  end.

Definition do_calls (cs : list call) (st : Trainer * gmap string node)
    : Trainer * gmap string node :=
  fold_left (fun st c => do_call c st) cs st.

(** The file system after the checkpoint writes [ws], in order. *)
Definition apply_writes (ws : list (string * string * Checkpoint))
    (fs : gmap string node) : gmap string node :=
  fold_left (fun fs w => <[os_path_join w.1.1 w.1.2 := File w.2]> fs) ws fs.

(** The best-model checkpoints written: every write but the init weights. *)
Definition best_writes (evs : list event) : list Checkpoint :=
  omap (fun e => match e with
                 | SaveCheckpoint _ filename ck =>
                     if bool_decide (filename = init_weight_file)
                     then None else Some ck
                 | _ => None
                 end) evs.

(** The records handed to [wandb.log]. *)
Definition logged (evs : list event) : list (gmap string float) :=
  omap (fun e => match e with
                 | WandbLog log_data => Some log_data
                 | _ => None
                 end) evs.

(** [correct] as [test_one_epoch] counts it. *)
Definition total_correct (params : gmap string Tensor)
    (batches : list Batch) : N :=
  fold_right (fun data n => (num_correct params data + n)%N) 0%N batches.

(** [total] as [test_one_epoch] counts it. *)
Definition total_labels (batches : list Batch) : N :=
  fold_right (fun data n => (labels_size data + n)%N) 0%N batches.

End Trainer.

Arguments mkRes {FW A} _ _ _ _.
Arguments outcome {FW A} _.
Arguments self' {FW A} _.
Arguments fs' {FW A} _.
Arguments emitted {FW A} _.
Arguments is_ok {FW A} _.

(** ** A concrete framework, for running the trainer on examples *)

Module Demo.

(** A test batch carries the number of its labels and, for every value of
    the model's parameter [w], how many predictions are correct. *)
Record demo_batch := {
  size : N;
  correct_at : list N
}.

(** Training on a batch adds one to the tensor [w] and to the optimizer's
    buffer; every loss is 1.  The numbers of the examples are small
    integers and their quotients, taken as exactly representable. *)
#[local] Instance demo : Framework := {|
  Tensor := Z;
  OptState := Z;
  Batch := demo_batch;
  sgd_fresh_state := 0;
  train_batch params opt _ :=
    (match params !! "w" with
     | Some w => <["w" := w + 1]> params
     | None => params
     end, state opt + 1, Q2Qc 1);
  labels_size b := size b;
  num_correct params b :=
    match params !! "w" with
    | Some w => nth (Z.to_nat w) (correct_at b) 0%N
    | None => 0%N
    end;
  scheduled_lr sched epoch := target_lr sched;
  fl x := x;
  fl_mono x y H := H;
  fl_int z H := eq_refl;
  float_sum xs := fold_left Qcplus xs (Q2Qc 0)
|}.

Definition demo_config : Config :=
  {| LR := Q2Qc (1 # 10); MOMENTUM := Q2Qc (9 # 10);
     WEIGHT_DECAY := Q2Qc 0; WARMUP_EPOCHS := 0; EPOCHS := 3;
     START_LR := Q2Qc (1 # 100); STORE_PARAM_BEFORE := 0;
     PRUNE_START_FROM := 2 |}.

Definition demo_model : Model :=
  {| model_state_dict := {["w" := 0]}; training := false |}.

(** Two training batches per epoch; one test batch of 10 labels, of which
    5, 7, 6 are predicted correctly after 2, 4, 6 training batches. *)
Definition demo_train : list demo_batch :=
  [ {| size := 4; correct_at := [] |}; {| size := 4; correct_at := [] |} ].

Definition demo_test : list demo_batch :=
  [ {| size := 10; correct_at := [0; 0; 5; 0; 7; 0; 6]%N |} ].

Definition demo_fs : gmap string node := {["out" := Dir]}.

Definition demo_trainer : Res unit :=
  init demo_model demo_train demo_test demo_config "out" "model" false demo_fs.

(** A first run of the fresh trainer. *)
Definition first_run : Res unit :=
  run ∅ (self' demo_trainer) (fs' demo_trainer).

(** [run] called again on the same object, without [reset]. *)
Definition second_run : Res unit :=
  run ∅ (self' first_run) (fs' first_run).

(** The pruning workflow: [reset] after the first run, then [run]. *)
Definition demo_reset : Res unit :=
  reset "out" "pruned" (self' first_run) (fs' first_run).

Definition run_after_reset : Res unit :=
  run ∅ (self' demo_reset) (fs' demo_reset).

(** A checkpoint of epoch 1 written by a trainer whose optimizer has
    made 7 steps, in a file of its own. *)
Definition demo_ck : Checkpoint :=
  {| ck_state_dict := {["w" := 5]};
     ck_optimizer :=
       optimizer_state_dict
         {| param_groups := {| lr := Q2Qc (1 # 20); momentum := Q2Qc (9 # 10);
                               weight_decay := Q2Qc 0 |};
            state := 7 |};
     ck_epoch := 1;
     ck_test_acc := Q2Qc 70 |}.

Definition ck_fs : gmap string node :=
  <["ckpt.pth.tar" := File demo_ck]> (fs' demo_trainer).

(** A trainer that has recorded an init-weights snapshot in "out". *)
Definition recorded : Trainer :=
  set_init_params_path (self' demo_trainer) "out/init_weight.pth.tar".

Definition recorded_fs : gmap string node :=
  <["out/init_weight.pth.tar" := File demo_ck]> (fs' demo_trainer).

(** A trainer with no training batch. *)
Definition no_batches : Res unit :=
  init demo_model [] demo_test demo_config "out" "model" false demo_fs.

(** [reset] of the trainer with a recorded snapshot. *)
Definition recorded_reset : Res unit :=
  reset "out" "pruned" recorded recorded_fs.

(** The trainer and the file system after [save_init_params] and one
    training epoch. *)
Definition restore_state : Trainer * gmap string node :=
  do_calls [CallTrainOneEpoch]
    (self' (save_init_params (self' demo_trainer) (fs' demo_trainer)),
     fs' (save_init_params (self' demo_trainer) (fs' demo_trainer))).



(** A file system in which the output path of the trainer is a regular
    file. *)
Definition file_fs : gmap string node :=
  <["out/model" := File demo_ck]> demo_fs.

(** A model with a parameter named like an entry of an optimizer's state
    dict. *)
Definition state_model : Model :=
  {| model_state_dict := {["w" := 0; "state" := 3]}; training := false |}.

(** A model with the parameters b, c, d and a saved dict with a, b, c. *)
Definition bcd_trainer : Trainer :=
  set_model (self' demo_trainer)
    {| model_state_dict := {["b" := 1; "c" := 2; "d" := 3]};
       training := false |}.

Definition abc_saved : gmap string (pyvalue Z Z) :=
  {["a" := PyTensor 10; "b" := PyTensor 11; "c" := PyTensor 12]}.

(** A trainer whose start epoch is [EPOCHS]: a finished training. *)
Definition finished : Trainer :=
  set_start_epoch (self' demo_trainer) 3.

End Demo.

(** * Properties *)

Section TrainerFacts.

Context `{FW : Framework}.

Local Abbreviation value := (pyvalue Tensor OptState).

Ltac unfold_M :=
  unfold mbind, M_bind, mret, M_ret, bind, ret, raise, get_self, get_fs,
    set_self, emit, when in *.

(** ** Floats *)

Lemma float_gt_spec (a b : float) : float_gt a b = true <-> (b < a)%Qc.
Proof.
  unfold float_gt. pose proof (Qcgt_alt a b) as H. simpl in H.
  unfold Qclt. rewrite H.
  destruct (a ?= b)%Qc; split; congruence.
Qed.

Lemma float_gt_false (a b : float) : float_gt a b = false <-> (a <= b)%Qc.
Proof.
  unfold float_gt. rewrite Qcle_alt.
  destruct (a ?= b)%Qc; split; intros; congruence.
Qed.

Lemma py_max_ge_r (a b : float) : (b <= py_max a b)%Qc.
Proof.
  unfold py_max. destruct (float_gt b a) eqn:E.
  - apply Qcle_refl.
  - by apply float_gt_false in E.
Qed.

Lemma py_max_ge_l (a b : float) : (a <= py_max a b)%Qc.
Proof.
  unfold py_max. destruct (float_gt b a) eqn:E.
  - apply float_gt_spec in E. by apply Qclt_le_weak.
  - apply Qcle_refl.
Qed.

Lemma py_max_cases (a b : float) : py_max a b = a \/ py_max a b = b.
Proof. unfold py_max. destruct (float_gt b a); auto. Qed.

#[local] Arguments str : simpl never.
#[local] Arguments init_weight_file : simpl never.
#[local] Arguments os_path_join : simpl never.

(** ** File names *)

Lemma pretty_N_go_head c (x : N) : not_digit c -> forall s,
  (forall r, s <> String c r) ->
  forall r, pretty_N_go x s <> String c r.
Proof.
  intros Hc. induction (N.lt_wf_0 x) as [x _ IH]; intros s Hs r.
  destruct (decide (x = 0%N)) as [->|Hx].
  - rewrite pretty_N_go_0. apply Hs.
  - rewrite pretty_N_go_step by lia. apply IH.
    + apply N.div_lt; lia.
    + intros r' [= Heq _]. by eapply Hc.
Qed.

Lemma str_head c (n : Z) (r : string) :
  not_digit c -> c <> "-"%char -> str n <> String c r.
Proof.
  intros Hc Hdash. unfold str, pretty, pretty_Z. destruct n as [|p|p].
  - intros [= Heq _]. by apply (Hc 0%N).
  - unfold pretty, pretty_positive, pretty, pretty_N.
    destruct (decide _); [done|]. by apply pretty_N_go_head.
  - simpl. intros [= <- _]. done.
Qed.

Lemma not_digit_i : not_digit "i".
Proof. intros n. unfold pretty_N_char. by repeat case_match. Qed.

Lemma not_digit_t : not_digit "t".
Proof. intros n. unfold pretty_N_char. by repeat case_match. Qed.

(** A best-model checkpoint is never named like the init weights. *)
Lemma best_name_not_init (epoch : Z) :
  str epoch +:+ ".pth.tar" <> init_weight_file.
Proof.
  pose proof (fun r => str_head "i" epoch r not_digit_i) as Hhead.
  destruct (str epoch) as [|c r]; [done|].
  unfold init_weight_file. simpl. intros [= -> _]. by eapply Hhead.
Qed.

Lemma append_assoc (a b c : string) : (a +:+ b) +:+ c = a +:+ b +:+ c.
Proof.
  induction a as [|x a IH]; [done|].
  change (String x ((a +:+ b) +:+ c) = String x (a +:+ b +:+ c)).
  by rewrite IH.
Qed.

Lemma list_of_append (a b : string) :
  list_ascii_of_string (a +:+ b) =
  (list_ascii_of_string a ++ list_ascii_of_string b)%list.
Proof.
  induction a as [|x a IH]; [done|].
  change (x :: list_ascii_of_string (a +:+ b) =
          x :: (list_ascii_of_string a ++ list_ascii_of_string b)%list).
  by rewrite IH.
Qed.

Lemma pretty_N_go_app (x : N) : forall s,
  exists d, pretty_N_go x s = d +:+ s.
Proof.
  induction (N.lt_wf_0 x) as [x _ IH]; intros s.
  destruct (decide (x = 0%N)) as [->|Hx].
  - exists "". by rewrite pretty_N_go_0.
  - rewrite pretty_N_go_step by lia.
    destruct (IH (x `div` 10)%N) with
      (s := String (pretty_N_char (x `mod` 10)) s) as [d Hd].
    { apply N.div_lt; lia. }
    exists (d +:+ String (pretty_N_char (x `mod` 10)) "").
    by rewrite Hd, append_assoc.
Qed.

(** [str n] ends with a digit. *)
Lemma str_last (n : Z) :
  exists d c, str n = d +:+ String c "" /\ c <> "t"%char.
Proof.
  assert (Hpos : forall p : positive,
    exists d c, pretty (Npos p) = d +:+ String c "" /\ c <> "t"%char).
  { intros p. unfold pretty, pretty_N.
    destruct (decide _); [done|].
    rewrite pretty_N_go_step by lia.
    destruct (pretty_N_go_app (N.pos p `div` 10)
                (String (pretty_N_char (N.pos p `mod` 10)) "")) as [d Hd].
    exists d, (pretty_N_char (N.pos p `mod` 10)).
    split; [done|]. apply not_digit_t. }
  unfold str, pretty, pretty_Z. destruct n as [|p|p].
  - exists "", "0"%char. by split.
  - apply Hpos.
  - destruct (Hpos p) as (d & c & Hd & Hc).
    exists ("-" +:+ d), c. split; [|done].
    unfold pretty, pretty_positive. by rewrite Hd.
Qed.

(** [os.path.join(a, b)] ends with [b]. *)
Lemma os_path_join_app (a b : string) :
  exists prefix, os_path_join a b = prefix +:+ b.
Proof.
  unfold os_path_join. destruct (startswith_sep b).
  - by exists "".
  - destruct (negb (truthy a) || endswith_sep a).
    + by exists a.
    + exists (a +:+ "/"). by rewrite append_assoc.
Qed.

(** No best-model checkpoint is written to the file of an init-weights
    snapshot, whatever the directories. *)
Lemma best_path_not_init_path (a d : string) (epoch : Z) :
  os_path_join a (str epoch +:+ ".pth.tar") <> os_path_join d init_weight_file.
Proof.
  destruct (os_path_join_app a (str epoch +:+ ".pth.tar")) as [p1 ->].
  destruct (os_path_join_app d init_weight_file) as [p2 ->].
  destruct (str_last epoch) as (ds & c & -> & Hc).
  intros Heq. apply (f_equal list_ascii_of_string) in Heq.
  change init_weight_file with ("init_weigh" +:+ String "t" ".pth.tar") in Heq.
  rewrite !list_of_append in Heq.
  change (list_ascii_of_string (String c "")) with [c] in Heq.
  rewrite !(assoc_L (++)) in Heq.
  rewrite <- (assoc_L (++) _ [c]) in Heq.
  apply app_inj_2 in Heq as [_ Heq]; [|done].
  simpl in Heq. by injection Heq as ->.
Qed.

Lemma truthy_app_r (a b : string) : truthy b = true -> truthy (a +:+ b) = true.
Proof. destruct a; simpl; auto. Qed.

(** The recorded init-params path is never empty. *)
Lemma init_path_truthy (dir : string) :
  truthy (os_path_join dir init_weight_file) = true.
Proof.
  unfold os_path_join. simpl.
  destruct (negb (truthy dir) || endswith_sep dir);
    repeat (apply truthy_app_r); reflexivity.
Qed.

Lemma truthy_true (s : string) : truthy s = true <-> s <> "".
Proof. destruct s; simpl; split; (done || congruence). Qed.

Lemma truthy_false (s : string) : truthy s = false <-> s = "".
Proof. destruct s; simpl; split; (done || congruence). Qed.

(** ** Straight-line methods, as equations *)


Lemma save_init_params_eq self fs :
  save_init_params self fs =
  let ck := {| ck_state_dict := model_state_dict (model self);
               ck_optimizer := optimizer_state_dict (optimizer self);
               ck_epoch := STORE_PARAM_BEFORE (config self) - 1;
               ck_test_acc := Q2Qc 0 |} in
  mkRes (inr tt)
    (set_init_params_path self
       (os_path_join (dir_prefix self) init_weight_file))
    (<[os_path_join (dir_prefix self) init_weight_file := File ck]> fs)
    [Print MsgStoredInitialWeights;
     SaveCheckpoint (dir_prefix self) init_weight_file ck;
     Print (MsgSavedModel (dir_prefix self) "init_weight")].
Proof. reflexivity. Qed.

Lemma save_best_params_eq test_acc epoch self fs :
  save_best_params test_acc epoch self fs =
  let self1 := set_best_acc self (py_max test_acc (best_acc self)) in
  if float_gt test_acc (best_acc self) then
    let ck := {| ck_state_dict := model_state_dict (model self);
                 ck_optimizer := optimizer_state_dict (optimizer self);
                 ck_epoch := epoch; ck_test_acc := test_acc |} in
    mkRes (inr tt) self1
      (<[os_path_join (best_model_path self) (str epoch +:+ ".pth.tar")
         := File ck]> fs)
      [SaveCheckpoint (best_model_path self) (str epoch +:+ ".pth.tar") ck;
       Print (MsgSavedModel (best_model_path self) (str epoch))]
  else mkRes (inr tt) self1 fs [].
Proof.
  unfold save_best_params. unfold_M. simpl.
  destruct (float_gt test_acc (best_acc self)); reflexivity.
Qed.

(** ** Partial loading of a state dict *)

Lemma lookup_partial_update (M S : gmap string value) (k : string) :
  (filter (fun kv => kv.1 ∈ dom M) S ∪ M) !! k =
  match M !! k with
  | Some m => Some (default m (S !! k))
  | None => None
  end.
Proof.
  destruct (M !! k) as [m|] eqn:HM.
  - destruct (S !! k) as [v|] eqn:HS; simpl.
    + apply lookup_union_Some_l, map_lookup_filter_Some. split; [done|].
      simpl. apply elem_of_dom. by exists m.
    + rewrite lookup_union_r; [done|].
      apply map_lookup_filter_None. left. done.
  - apply lookup_union_None. split; [|done].
    apply map_lookup_filter_None. right. intros v _. simpl.
    rewrite elem_of_dom, HM. by intros [? ?].
Qed.

Lemma dom_partial_update (M S : gmap string value) :
  dom (filter (fun kv => kv.1 ∈ dom M) S ∪ M) = dom M.
Proof.
  apply set_eq. intros k. rewrite !elem_of_dom, lookup_partial_update.
  destruct (M !! k); split; intros [? ?]; by eauto.
Qed.

(** [loadable d own]: no entry of [d] under a key of [own] is anything
    but a tensor. *)
Lemma loadable_spec (d : gmap string value) (own : gmap string Tensor) :
  loadable d own = true <->
  forall k v, d !! k = Some v -> is_Some (own !! k) -> is_tensor v = true.
Proof.
  unfold loadable. rewrite forallb_forall. split.
  - intros H k v Hd [t Ht]. specialize (H (k, v)). simpl in H.
    rewrite Ht in H. apply H. by apply list_elem_of_In, elem_of_map_to_list.
  - intros H [k v] Hin. simpl.
    apply list_elem_of_In, elem_of_map_to_list in Hin.
    destruct (own !! k) as [t|] eqn:Ht; [|done]. eapply H; eauto.
Qed.


Lemma loadable_dom (d : gmap string value) (own1 own2 : gmap string Tensor) :
  dom own1 = dom own2 -> loadable d own1 = loadable d own2.
Proof.
  intros Hdom. apply eq_true_iff_eq. rewrite !loadable_spec.
  assert (Hk : forall k, is_Some (own1 !! k) <-> is_Some (own2 !! k)).
  { intros k. by rewrite <- !elem_of_dom, Hdom. }
  split; intros H k v Hd Hin; apply (H k v Hd); by apply Hk.
Qed.

Lemma loadable_tensors (sd own : gmap string Tensor) :
  loadable (PyTensor <$> sd) own = true.
Proof.
  apply loadable_spec. intros k v Hk _. rewrite lookup_fmap in Hk.
  destruct (sd !! k); by simplify_eq/=.
Qed.

Lemma lookup_copy_tensors (d : gmap string value) (own : gmap string Tensor)
    (k : string) :
  copy_tensors d own !! k =
  (fun t => match d !! k with
            | Some (PyTensor x) => x
            | _ => t
            end) <$> own !! k.
Proof. unfold copy_tensors. rewrite map_lookup_imap. by destruct (own !! k). Qed.

Lemma dom_copy_tensors (d : gmap string value) (own : gmap string Tensor) :
  dom (copy_tensors d own) = dom own.
Proof.
  apply set_eq. intros k.
  by rewrite !elem_of_dom, lookup_copy_tensors, fmap_is_Some.
Qed.

(** Copying from a dict of tensors: the saved value where there is one. *)
Lemma lookup_copy_saved (sd own : gmap string Tensor) (k : string) :
  copy_tensors (PyTensor <$> sd) own !! k =
  (fun t => default t (sd !! k)) <$> own !! k.
Proof.
  rewrite lookup_copy_tensors, lookup_fmap.
  by destruct (sd !! k), (own !! k).
Qed.

(** The dict that [initialize_params] hands to [load_state_dict]. *)
Lemma lookup_merged (state_dict : gmap string value)
    (own : gmap string Tensor) (k : string) :
  (filter (fun kv => kv.1 ∈ dom (PyTensor (OptState:=OptState) <$> own))
     state_dict ∪ (PyTensor <$> own)) !! k =
  match own !! k with
  | Some t => Some (default (PyTensor t) (state_dict !! k))
  | None => None
  end.
Proof. rewrite lookup_partial_update, lookup_fmap. by destruct (own !! k). Qed.

Lemma initialize_params_eq model_arg state_dict self fs :
  initialize_params model_arg state_dict self fs =
  mkRes (if loadable state_dict (model_state_dict (model self))
         then inr tt else inl RuntimeError_load_state_dict)
    (set_model self
       {| model_state_dict :=
            copy_tensors state_dict (model_state_dict (model self));
          training := training (model self) |})
    fs [].
Proof.
  unfold initialize_params, load_state_dict. unfold_M. simpl.
  set (own := model_state_dict (model self)).
  set (merged := filter _ state_dict ∪ (PyTensor <$> own)).
  assert (Hdom : dom merged = dom own).
  { unfold merged. by rewrite dom_partial_update, dom_fmap_L. }
  assert (Hcopy : copy_tensors merged own = copy_tensors state_dict own).
  { apply map_eq. intros k. rewrite !lookup_copy_tensors.
    unfold merged. rewrite lookup_merged.
    destruct (own !! k) as [t|]; [|done]. simpl.
    by destruct (state_dict !! k) as [[]|]. }
  assert (Hload : loadable merged own = loadable state_dict own).
  { apply eq_true_iff_eq. rewrite !loadable_spec.
    split; intros H k v Hv [t Ht].
    - apply (H k v); [|by eexists]. unfold merged.
      by rewrite lookup_merged, Ht, Hv.
    - unfold merged in Hv. rewrite lookup_merged, Ht in Hv.
      destruct (state_dict !! k) as [v0|] eqn:Hk; simpl in Hv.
      + injection Hv as <-. apply (H k v0 Hk). by eexists.
      + by injection Hv as <-. }
  rewrite Hdom, Hcopy, Hload, bool_decide_eq_true_2 by done. simpl.
  by destruct (loadable state_dict own).
Qed.

Lemma load_params_eq model_path self fs :
  load_params model_path self fs =
  match fs !! model_path with
  | Some (File ck) =>
      if loadable (ck_optimizer ck) (model_state_dict (model self))
      then mkRes (inr tt) (loaded self ck) fs
             [Print (MsgLoadedParameters model_path)]
      else mkRes (inl RuntimeError_load_state_dict)
             (set_model self (loaded_model self ck)) fs []
  | Some Dir => mkRes (inl (IsADirectoryError model_path)) self fs []
  | None => mkRes (inl (FileNotFoundError model_path)) self fs []
  end.
Proof.
  unfold load_params, torch_load. unfold_M.
  destruct (fs !! model_path) as [[|ck]|]; simpl; try reflexivity.
  rewrite initialize_params_eq, loadable_tensors. simpl.
  rewrite initialize_params_eq. simpl.
  rewrite (loadable_dom _ _ _ (dom_copy_tensors _ _)).
  by destruct (loadable (ck_optimizer ck) (model_state_dict (model self))).
Qed.

Lemma load_init_params_eq path self fs :
  load_init_params path self fs =
  match fs !! path with
  | Some (File ck) =>
      if loadable (ck_optimizer ck) (model_state_dict (model self))
      then mkRes (inr tt)
             (set_start_epoch (loaded self ck) (PRUNE_START_FROM (config self)))
             fs [Print (MsgLoadedParameters path)]
      else mkRes (inl RuntimeError_load_state_dict)
             (set_model self (loaded_model self ck)) fs []
  | Some Dir => mkRes (inl (IsADirectoryError path)) self fs []
  | None => mkRes (inl (FileNotFoundError path)) self fs []
  end.
Proof.
  unfold load_init_params. unfold_M. rewrite load_params_eq.
  destruct (fs !! path) as [[|ck]|]; try reflexivity.
  by destruct (loadable (ck_optimizer ck) (model_state_dict (model self))).
Qed.

(** ** The two passes over the data *)

Lemma train_batches_spec batches : forall losses self fs,
  exists m o losses',
    train_batches batches losses self fs =
      mkRes (inr losses') (set_optimizer (set_model self m) o) fs []
    /\ length losses' = (length losses + length batches)%nat.
Proof.
  induction batches as [|data rest IH]; intros losses self fs.
  - exists (model self), (optimizer self), losses. split; [|simpl; lia].
    destruct self; reflexivity.
  - simpl. unfold_M. simpl.
    destruct (train_batch _ _ data) as [[params buffers] loss]. simpl.
    match goal with
    | |- context [train_batches rest ?l ?t ?f] =>
        destruct (IH l t f) as (m & o & losses' & -> & Hlen)
    end.
    exists m, o, losses'. split; [reflexivity|].
    rewrite Hlen, length_app. simpl. lia.
Qed.

Lemma train_one_epoch_spec self fs :
  exists m o out,
    train_one_epoch self fs =
      mkRes out (set_optimizer (set_model self m) o) fs []
    /\ ((out = inl ZeroDivisionError /\ trainloader self = [])
        \/ (exists loss, out = inr loss /\ trainloader self <> [])).
Proof.
  unfold train_one_epoch. unfold_M. simpl.
  match goal with
  | |- context [train_batches ?b ?l ?t ?f] =>
      destruct (train_batches_spec b l t f) as (m & o & losses & -> & Hlen)
  end.
  simpl in *. exists m, o.
  destruct (decide (length losses = 0%nat)) as [Hz|Hnz]; simpl.
  - exists (inl ZeroDivisionError). split; [reflexivity|]. left.
    split; [reflexivity|]. apply length_zero_iff_nil. lia.
  - eexists. split; [reflexivity|]. right. eexists. split; [reflexivity|].
    intros Hnil. rewrite Hnil in Hlen. simpl in Hlen. lia.
Qed.

Lemma test_batches_spec params batches : forall correct total,
  snd (test_batches params batches correct total) =
  (total + total_labels batches)%N.
Proof.
  induction batches as [|data rest IH]; intros correct total; simpl.
  - lia.
  - rewrite IH. lia.
Qed.

Lemma Qc_of_Z_nonneg (z : Z) : 0 <= z -> (Q2Qc 0 <= Qc_of_Z z)%Qc.
Proof. intros Hz. unfold Qcle, Qle. simpl. lia. Qed.

Lemma Qcmult_nonneg (a b : Qc) :
  (Q2Qc 0 <= a)%Qc -> (Q2Qc 0 <= b)%Qc -> (Q2Qc 0 <= a * b)%Qc.
Proof.
  intros Ha Hb. rewrite <- (Qcmult_0_l b). by apply Qcmult_le_compat_r.
Qed.

Lemma Qcinv_nonneg (a : Qc) : (Q2Qc 0 <= a)%Qc -> (Q2Qc 0 <= / a)%Qc.
Proof.
  unfold Qcle, Qcinv. intros Ha.
  change (0 <= Qred (/ a))%Q. rewrite (Qred_correct (/ a)).
  apply Qinv_le_0_compat. exact Ha.
Qed.

Lemma fl_zero : fl (Q2Qc 0) = Q2Qc 0.
Proof. rewrite <- Z2Qc_inj_0. apply fl_int. simpl. lia. Qed.

Lemma fl_nonneg (x : Qc) : (Q2Qc 0 <= x)%Qc -> (Q2Qc 0 <= fl x)%Qc.
Proof. intros Hx. rewrite <- fl_zero. by apply fl_mono. Qed.

Lemma test_acc_nonneg (correct total : N) :
  (Q2Qc 0 <= float_div (float_mul (Q2Qc 100) (float_of_int (Z.of_N correct)))
               (float_of_int (Z.of_N total)))%Qc.
Proof.
  unfold float_div, float_mul, float_of_int, Qcdiv.
  apply fl_nonneg, Qcmult_nonneg.
  - apply fl_nonneg, Qcmult_nonneg.
    + unfold Qcle, Qle. simpl. lia.
    + apply fl_nonneg, Qc_of_Z_nonneg. lia.
  - apply Qcinv_nonneg, fl_nonneg, Qc_of_Z_nonneg. lia.
Qed.

Lemma test_one_epoch_spec self fs :
  exists out,
    test_one_epoch self fs =
      mkRes out
        (set_model self
           {| model_state_dict := model_state_dict (model self);
              training := false |}) fs []
    /\ ((out = inl ZeroDivisionError /\ total_labels (testloader self) = 0%N)
        \/ (exists acc, out = inr acc /\ (Q2Qc 0 <= acc)%Qc
                        /\ total_labels (testloader self) <> 0%N)).
Proof.
  unfold test_one_epoch. unfold_M. simpl.
  pose proof (test_batches_spec (model_state_dict (model self))
                (testloader self) 0%N 0%N) as Htot.
  destruct (test_batches _ _ _ _) as [correct total]. simpl in Htot.
  rewrite N.add_0_l in Htot. subst total.
  destruct (decide (total_labels (testloader self) = 0%N)) as [Hz|Hnz]; simpl.
  - exists (inl ZeroDivisionError). auto.
  - eexists. split; [reflexivity|]. right. eexists. split; [reflexivity|].
    split; [apply test_acc_nonneg|done].
Qed.

(** ** One epoch *)

Lemma run_epoch_spec e log_data self fs :
  exists m o,
    let rate := scheduled_lr (lr_scheduler self) e in
    let start := Print (MsgEpoch e (EPOCHS (config self) - 1) rate) in
    let self2 := set_optimizer (set_model self m) o in
    (run_epoch e log_data self fs =
       mkRes (inl ZeroDivisionError) self2 fs [start]
     /\ (trainloader self = [] \/ total_labels (testloader self) = 0%N))
    \/
    (exists acc loss,
       let r := run_epoch e log_data self fs in
       let self3 := set_best_acc self2 (py_max acc (best_acc self)) in
       let log_data' :=
         if wandb_log self
         then <["lr" := rate]>
                (<["loss" := loss]> (<["acc" := acc]> log_data))
         else log_data in
       let ckb := {| ck_state_dict := model_state_dict m;
                     ck_optimizer := optimizer_state_dict o;
                     ck_epoch := e; ck_test_acc := acc |} in
       let cki := {| ck_state_dict := model_state_dict m;
                     ck_optimizer := optimizer_state_dict o;
                     ck_epoch := STORE_PARAM_BEFORE (config self) - 1;
                     ck_test_acc := Q2Qc 0 |} in
       trainloader self <> [] /\ total_labels (testloader self) <> 0%N
       /\ (Q2Qc 0 <= acc)%Qc
       /\ outcome r = inr log_data'
       /\ self' r =
            (if stores_init self e
             then set_init_params_path self3
                    (os_path_join (dir_prefix self) init_weight_file)
             else self3)
       /\ emitted r =
            start :: Print (MsgTestAccuracy acc) ::
            (if float_gt acc (best_acc self)
             then [SaveCheckpoint (best_model_path self)
                     (str e +:+ ".pth.tar") ckb;
                   Print (MsgSavedModel (best_model_path self) (str e))]
             else []) ++
            (if stores_init self e
             then [Print MsgStoredInitialWeights;
                   SaveCheckpoint (dir_prefix self) init_weight_file cki;
                   Print (MsgSavedModel (dir_prefix self) "init_weight")]
             else []) ++
            (if wandb_log self
             then [WlogPrunedWeight; WandbLog log_data']
             else [])
       /\ fs' r =
            let fs1 :=
              if float_gt acc (best_acc self)
              then <[os_path_join (best_model_path self)
                       (str e +:+ ".pth.tar") := File ckb]> fs
              else fs in
            if stores_init self e
            then <[os_path_join (dir_prefix self) init_weight_file
                   := File cki]> fs1
            else fs1).
Proof.
  unfold run_epoch, lr_scheduler_call, stores_init. unfold_M. simpl.
  match goal with
  | |- context [train_one_epoch ?t ?f] =>
      destruct (train_one_epoch_spec t f) as (m & o & out & -> & Hout)
  end.
  simpl in Hout.
  destruct Hout as [[-> Hnil]|[loss [-> Hnil]]]; simpl.
  { exists m, o. left. split; [reflexivity|]. by left. }
  match goal with
  | |- context [test_one_epoch ?t ?f] =>
      destruct (test_one_epoch_spec t f) as (out & -> & Hout)
  end.
  simpl in Hout.
  destruct Hout as [[-> Hz]|[acc (-> & Hacc & Hnz)]]; simpl.
  { eexists _, o. left. split; [reflexivity|]. by right. }
  eexists _, o. right. exists acc, loss.
  rewrite save_best_params_eq. simpl.
  do 3 (split; [done|]).
  destruct (float_gt acc (best_acc self)); simpl;
    destruct (negb (truthy (init_params_path self))
              && bool_decide (STORE_PARAM_BEFORE (config self) - 1 = e));
    simpl; destruct (wandb_log self); simpl; repeat split.
Qed.

Lemma same_setup_trans self1 self2 self3 :
  same_setup self1 self2 -> same_setup self2 self3 -> same_setup self1 self3.
Proof. unfold same_setup. intros. destruct_and!. repeat split; congruence. Qed.

Lemma run_epoch_summary e log_data self fs :
  let r := run_epoch e log_data self fs in
  same_setup self (self' r)
  /\ (forall x, outcome r = inl x -> x = ZeroDivisionError)
  /\ (is_ok r = false <->
        trainloader self = [] \/ total_labels (testloader self) = 0%N)
  /\ epochs_started (emitted r) = [e]
  /\ Forall nonneg (observed_accs (emitted r))
  /\ length (observed_accs (emitted r)) = (if is_ok r then 1 else 0)%nat
  /\ best_acc (self' r) =
       best_after (best_acc self) (observed_accs (emitted r))
  /\ timeline (emitted r) =
       EpochStart e ::
         (if is_ok r
          then EpochTested :: (if stores_init self e then [InitWrite] else [])
          else [])
  /\ init_writes (emitted r) =
       (if is_ok r && stores_init self e then 1 else 0)%nat
  /\ init_params_path (self' r) =
       (if is_ok r && stores_init self e
        then os_path_join (dir_prefix self) init_weight_file
        else init_params_path self).
Proof.
  intros r. subst r.
  destruct (run_epoch_spec e log_data self fs)
    as (m & o & [[Heq Hcause] |
                 (acc & loss & Hnil & Hnz & Hacc & Hout & Hself & Hem & _)]).
  - rewrite Heq. unfold is_ok. simpl.
    repeat split; try done.
    by intros x [= <-].
  - cbv zeta in *. unfold is_ok. rewrite Hout, Hself, Hem. clear Hout Hself Hem.
    unfold epochs_started, observed_accs, timeline, init_writes, best_after.
    split.
    { destruct (stores_init self e); by repeat split. }
    split; [done|].
    split. { split; [done|]. intros [?|?]; done. }
    destruct (float_gt acc (best_acc self));
      destruct (stores_init self e); destruct (wandb_log self); simpl;
      rewrite ?(bool_decide_eq_false_2 _ (best_name_not_init e)); simpl;
      repeat split; try done; by repeat constructor.
Qed.

(** ** The epoch loop *)

#[local] Arguments epochs_started : simpl never.
#[local] Arguments observed_accs : simpl never.
#[local] Arguments timeline : simpl never.
#[local] Arguments init_writes : simpl never.
#[local] Arguments best_after : simpl never.

Lemma outcome_after {A} evs (r : Res A) : outcome (after evs r) = outcome r.
Proof. by destruct r. Qed.

Lemma self_after {A} evs (r : Res A) : self' (after evs r) = self' r.
Proof. by destruct r. Qed.

Lemma emitted_after {A} evs (r : Res A) :
  emitted (after evs r) = (evs ++ emitted r)%list.
Proof. by destruct r. Qed.

Lemma is_ok_after {A} evs (r : Res A) : is_ok (after evs r) = is_ok r.
Proof. by destruct r. Qed.

Lemma init_writes_app evs1 evs2 :
  init_writes (evs1 ++ evs2)%list = (init_writes evs1 + init_writes evs2)%nat.
Proof. unfold init_writes. by rewrite List.filter_app, length_app. Qed.

Lemma epochs_started_app evs1 evs2 :
  epochs_started (evs1 ++ evs2)%list =
  (epochs_started evs1 ++ epochs_started evs2)%list.
Proof. apply omap_app. Qed.

Lemma observed_accs_app evs1 evs2 :
  observed_accs (evs1 ++ evs2)%list =
  (observed_accs evs1 ++ observed_accs evs2)%list.
Proof. apply omap_app. Qed.

Lemma timeline_app evs1 evs2 :
  timeline (evs1 ++ evs2)%list = (timeline evs1 ++ timeline evs2)%list.
Proof. apply omap_app. Qed.

Lemma best_after_app best accs1 accs2 :
  best_after best (accs1 ++ accs2)%list = best_after (best_after best accs1) accs2.
Proof. apply fold_left_app. Qed.

Lemma run_epochs_cons e rest log_data self fs :
  run_epochs (e :: rest) log_data self fs =
  match run_epoch e log_data self fs with
  | mkRes (inl x) self1 fs1 evs => mkRes (inl x) self1 fs1 evs
  | mkRes (inr log_data1) self1 fs1 evs =>
      after evs (run_epochs rest log_data1 self1 fs1)
  end.
Proof. reflexivity. Qed.

Lemma run_epochs_summary eps : forall log_data self fs,
  let r := run_epochs eps log_data self fs in
  same_setup self (self' r)
  /\ (forall x, outcome r = inl x -> x = ZeroDivisionError)
  /\ epochs_started (emitted r) `prefix_of` eps
  /\ head (epochs_started (emitted r)) = head eps
  /\ Forall nonneg (observed_accs (emitted r))
  /\ best_acc (self' r) =
       best_after (best_acc self) (observed_accs (emitted r))
  /\ (truthy (init_params_path self) = true ->
       init_params_path (self' r) = init_params_path self)
  /\ init_writes (emitted r) =
       (if truthy (init_params_path self) then 0
        else if truthy (init_params_path (self' r)) then 1 else 0)%nat
  /\ (is_ok r = true ->
       epochs_started (emitted r) = eps
       /\ length (observed_accs (emitted r)) = length eps
       /\ timeline (emitted r) =
            expected_timeline (truthy (init_params_path self))
              (STORE_PARAM_BEFORE (config self)) eps)
  /\ (eps <> [] ->
       trainloader self = [] \/ total_labels (testloader self) = 0%N ->
       outcome r = inl ZeroDivisionError).
Proof.
  induction eps as [|e rest IH]; intros log_data self fs r; subst r.
  { simpl. unfold is_ok. simpl.
    repeat split; try done.
    by destruct (truthy (init_params_path self)). }
  rewrite run_epochs_cons.
  pose proof (run_epoch_summary e log_data self fs) as S1. cbv zeta in S1.
  destruct (run_epoch e log_data self fs) as [[x|log_data1] self1 fs1 evs1].
  - (* the epoch raised *)
    unfold is_ok in *. simpl in *.
    destruct S1 as (Hset & Hexn & Hcause & Hst & Hnn & Hlen & Hbest
                    & Htl & Hiw & Hpath).
    split; [done|]. split; [by intros y [= <-]; apply Hexn|].
    split; [rewrite Hst; by exists rest|].
    split; [by rewrite Hst|].
    split; [done|]. split; [done|].
    split; [by intros _; rewrite Hpath|].
    split; [rewrite Hiw, Hpath; by destruct (truthy (init_params_path self))|].
    split; [done|].
    intros _ _. f_equal. by apply Hexn.
  - (* the epoch completed *)
    specialize (IH log_data1 self1 fs1). cbv zeta in IH.
    rewrite outcome_after, self_after, emitted_after, is_ok_after.
    unfold is_ok in S1. simpl in S1.
    destruct S1 as (Hset & Hexn & Hcause & Hst & Hnn & Hlen & Hbest
                    & Htl & Hiw & Hpath).
    destruct IH as (Hset2 & Hexn2 & Hpre2 & Hhd2 & Hnn2 & Hbest2 & Hkeep2
                    & Hiw2 & Hok2 & Hfail2).
    rewrite epochs_started_app, observed_accs_app, timeline_app,
      init_writes_app, best_after_app, Hst, Htl, Hiw.
    assert (STORE_PARAM_BEFORE (config self1) = STORE_PARAM_BEFORE (config self))
      as Hspb by (unfold same_setup in Hset; destruct_and!; congruence).
    split; [by eapply same_setup_trans|].
    split; [done|].
    split; [by apply prefix_cons|].
    split; [done|].
    split; [by apply Forall_app|].
    split; [by rewrite <- Hbest|].
    assert (Hcases :
      (stores_init self e = true /\ truthy (init_params_path self) = false
       /\ truthy (init_params_path self1) = true)
      \/ (stores_init self e = false
          /\ init_params_path self1 = init_params_path self)).
    { destruct (stores_init self e) eqn:Hs; [left|right; done].
      split; [done|]. split.
      - unfold stores_init in Hs. apply andb_true_iff in Hs as [Hs _].
        by apply negb_true_iff in Hs.
      - rewrite Hpath. apply init_path_truthy. }
    destruct Hcases as [(Hs & Hp0 & Hp1)|(Hs & Hp1)].
    + assert (bool_decide (STORE_PARAM_BEFORE (config self) - 1 = e) = true)
        as Hb by (unfold stores_init in Hs; by apply andb_true_iff in Hs as [_ ?]).
      rewrite Hs, Hp0, Hp1 in *. simpl.
      specialize (Hkeep2 eq_refl). rewrite Hkeep2, Hp1.
      split; [done|]. split; [by rewrite Hiw2|].
      split.
      * intros Hok. destruct (Hok2 Hok) as (He & Hl & Ht).
        rewrite He, Ht, length_app, Hl, Hlen, Hspb. simpl.
        by rewrite Hb.
      * intros _ Hc. exfalso. apply Hcause in Hc. done.
    + rewrite Hs, Hp1 in *. simpl.
      split; [done|]. split; [done|].
      split.
      * intros Hok. destruct (Hok2 Hok) as (He & Hl & Ht).
        rewrite He, Ht, length_app, Hl, Hlen, Hspb. simpl.
        unfold stores_init in Hs. by rewrite Hs.
      * intros _ Hc. exfalso. apply Hcause in Hc. done.
Qed.

(** ** [run] and [reset], as equations *)

Lemma run_eq log_data self fs :
  run log_data self fs =
  if negb (truthy (init_params_path self))
     && bool_decide (STORE_PARAM_BEFORE (config self) = 0)
  then
    let ck := {| ck_state_dict := model_state_dict (model self);
                 ck_optimizer := optimizer_state_dict (optimizer self);
                 ck_epoch := STORE_PARAM_BEFORE (config self) - 1;
                 ck_test_acc := Q2Qc 0 |} in
    after
      [Print MsgStoredInitialWeights;
       SaveCheckpoint (dir_prefix self) init_weight_file ck;
       Print (MsgSavedModel (dir_prefix self) "init_weight")]
      (run_epochs (range (start_epoch self) (EPOCHS (config self))) log_data
         (set_init_params_path self
            (os_path_join (dir_prefix self) init_weight_file))
         (<[os_path_join (dir_prefix self) init_weight_file := File ck]> fs))
  else
    run_epochs (range (start_epoch self) (EPOCHS (config self))) log_data
      self fs.
Proof.
  unfold run. unfold_M. simpl.
  destruct (negb (truthy (init_params_path self))
            && bool_decide (STORE_PARAM_BEFORE (config self) = 0)); simpl.
  - by destruct (run_epochs _ _ _ _).
  - by destruct (run_epochs _ _ _ _).
Qed.

Lemma reset_eq dir_prefix0 model_dir0 self fs :
  reset dir_prefix0 model_dir0 self fs =
  let self1 := reset_start dir_prefix0 model_dir0 self in
  let out := os_path_join dir_prefix0 model_dir0 in
  let finish self2 evs :=
    if os_path_exists fs out
    then mkRes (inr tt) (set_best_model_path self2 out) fs evs
    else
      match mkdir_error fs out with
      | Some x => mkRes (inl x) (set_best_model_path self2 out) fs evs
      | None =>
          mkRes (inr tt) (set_best_model_path self2 out)
            (<[out := Dir]> fs) evs
      end in
  if truthy (init_params_path self) then
    match fs !! init_params_path self with
    | Some (File ck) =>
        if loadable (ck_optimizer ck) (model_state_dict (model self))
        then finish (set_start_epoch (loaded self1 ck)
                       (PRUNE_START_FROM (config self)))
               [Print (MsgLoadedParameters (init_params_path self))]
        else mkRes (inl RuntimeError_load_state_dict)
               (set_model self1 (loaded_model self1 ck)) fs []
    | Some Dir =>
        mkRes (inl (IsADirectoryError (init_params_path self))) self1 fs []
    | None =>
        mkRes (inl (FileNotFoundError (init_params_path self))) self1 fs []
    end
  else finish self1 [].
Proof.
  unfold reset. unfold_M. simpl.
  destruct (truthy (init_params_path self)); simpl.
  - rewrite load_init_params_eq. simpl.
    destruct (fs !! init_params_path self) as [[|ck]|]; simpl; try reflexivity.
    destruct (loadable (ck_optimizer ck) (model_state_dict (model self)));
      simpl; [|reflexivity].
    unfold os_mkdir.
    destruct (os_path_exists fs (os_path_join dir_prefix0 model_dir0))
      eqn:Hex; unfold ret; simpl; [reflexivity|].
    by destruct (mkdir_error fs (os_path_join dir_prefix0 model_dir0)).
  - unfold os_mkdir.
    destruct (os_path_exists fs (os_path_join dir_prefix0 model_dir0))
      eqn:Hex; unfold ret; simpl; [reflexivity|].
    by destruct (mkdir_error fs (os_path_join dir_prefix0 model_dir0)).
Qed.

(** ** Timelines *)

Lemma range_nil lo hi : hi <= lo -> range lo hi = [].
Proof. intros. unfold range. apply seqZ_nil. lia. Qed.

Lemma range_cons lo hi : lo < hi -> range lo hi = lo :: range (lo + 1) hi.
Proof.
  intros. unfold range. rewrite seqZ_cons by lia.
  f_equal. f_equal; lia.
Qed.

Lemma expected_timeline_stored spb eps :
  expected_timeline true spb eps = epoch_marks eps.
Proof. induction eps as [|e rest IH]; simpl; by rewrite ?IH. Qed.

Lemma expected_timeline_range spb hi (n : nat) : forall lo,
  Z.to_nat (hi - lo) = n ->
  expected_timeline false spb (range lo hi) =
  if decide (lo <= spb - 1 < hi)
  then (epoch_marks (range lo spb)
        ++ InitWrite :: epoch_marks (range spb hi))%list
  else epoch_marks (range lo hi).
Proof.
  induction n as [|n IH]; intros lo Hn.
  - rewrite (range_nil lo hi) by lia. simpl.
    destruct (decide _); [lia|done].
  - rewrite (range_cons lo hi) by lia. simpl.
    destruct (decide (spb - 1 = lo)) as [Heq|Hne].
    + rewrite bool_decide_eq_true_2 by done.
      rewrite expected_timeline_stored.
      rewrite decide_True by lia.
      rewrite (range_cons lo spb) by lia.
      rewrite (range_nil (lo + 1) spb) by lia. simpl.
      by replace (lo + 1) with spb by lia.
    + rewrite bool_decide_eq_false_2 by done.
      rewrite IH by lia.
      destruct (decide (lo + 1 <= spb - 1 < hi)).
      * rewrite decide_True by lia.
        by rewrite (range_cons lo spb) by lia.
      * by rewrite decide_False by lia.
Qed.

(** Without an init-weights write, a timeline has no init mark. *)
Lemma timeline_no_init evs :
  init_writes evs = 0%nat ->
  Forall (fun m => is_init_mark m = false) (timeline evs).
Proof.
  unfold init_writes, timeline.
  induction evs as [|ev evs IH]; [by constructor|].
  destruct ev as [[]| p f ck | | |]; simpl; try exact IH;
    try (intros H; constructor; [done|by apply IH]).
  destruct (bool_decide (f = init_weight_file)); simpl; [done|exact IH].
Qed.

(** ** A whole run *)

Lemma run_summary log_data self fs :
  let r := run log_data self fs in
  let eps := range (start_epoch self) (EPOCHS (config self)) in
  let store_first :=
    negb (truthy (init_params_path self))
    && bool_decide (STORE_PARAM_BEFORE (config self) = 0) in
  same_setup self (self' r)
  /\ (forall x, outcome r = inl x -> x = ZeroDivisionError)
  /\ epochs_started (emitted r) `prefix_of` eps
  /\ head (epochs_started (emitted r)) = head eps
  /\ Forall nonneg (observed_accs (emitted r))
  /\ best_acc (self' r) =
       best_after (best_acc self) (observed_accs (emitted r))
  /\ (truthy (init_params_path self) = true ->
       init_params_path (self' r) = init_params_path self
       /\ init_writes (emitted r) = 0%nat)
  /\ (init_writes (emitted r) <= 1)%nat
  /\ (is_ok r = true ->
       epochs_started (emitted r) = eps
       /\ length (observed_accs (emitted r)) = length eps)
  /\ (eps <> [] ->
       trainloader self = [] \/ total_labels (testloader self) = 0%N ->
       outcome r = inl ZeroDivisionError)
  /\ (store_first = true ->
       exists marks,
         timeline (emitted r) = InitWrite :: marks
         /\ Forall (fun m => is_init_mark m = false) marks
         /\ (is_ok r = true -> marks = epoch_marks eps))
  /\ (store_first = false -> is_ok r = true ->
       timeline (emitted r) =
       expected_timeline (truthy (init_params_path self))
         (STORE_PARAM_BEFORE (config self)) eps).
Proof.
  intros r eps store_first. subst r eps store_first. rewrite run_eq.
  destruct (negb (truthy (init_params_path self))
            && bool_decide (STORE_PARAM_BEFORE (config self) = 0)) eqn:Hfirst.
  - (* the initial weights are stored before the loop *)
    apply andb_true_iff in Hfirst as [Hempty _].
    apply negb_true_iff in Hempty.
    cbv zeta.
    match goal with
    | |- context [run_epochs ?eps ?l ?t ?f] =>
        pose proof (run_epochs_summary eps l t f) as S;
        set (r2 := run_epochs eps l t f) in *
    end.
    cbv zeta in S. simpl in S. rewrite init_path_truthy in S.
    destruct S as (Hset & Hexn & Hpre & Hhd & Hnn & Hbest & Hkeep & Hiw
                   & Hok & Hfail).
    rewrite outcome_after, self_after, emitted_after, is_ok_after.
    rewrite epochs_started_app, observed_accs_app, timeline_app,
      init_writes_app.
    change (epochs_started [_; _; _]) with (@nil Z).
    change (observed_accs [_; _; _]) with (@nil float).
    change (timeline [_; _; _]) with [InitWrite].
    change (init_writes [_; _; _]) with 1%nat.
    rewrite Hiw. simpl.
    split; [exact Hset|]. split; [exact Hexn|]. split; [exact Hpre|].
    split; [exact Hhd|]. split; [exact Hnn|]. split; [exact Hbest|].
    split; [by rewrite Hempty|]. split; [lia|].
    split; [intros Hk; by destruct (Hok Hk) as (? & ? & ?)|].
    split; [exact Hfail|].
    split; [|done].
    intros _. exists (timeline (emitted r2)).
    split; [done|]. split; [by apply timeline_no_init|].
    intros Hk. destruct (Hok Hk) as (_ & _ & ->).
    apply expected_timeline_stored.
  - pose proof (run_epochs_summary
                  (range (start_epoch self) (EPOCHS (config self)))
                  log_data self fs) as S.
    cbv zeta in S.
    destruct S as (Hset & Hexn & Hpre & Hhd & Hnn & Hbest & Hkeep & Hiw
                   & Hok & Hfail).
    split; [exact Hset|]. split; [exact Hexn|]. split; [exact Hpre|].
    split; [exact Hhd|]. split; [exact Hnn|]. split; [exact Hbest|].
    split.
    { intros Ht. split; [by apply Hkeep|]. by rewrite Hiw, Ht. }
    split.
    { rewrite Hiw. repeat case_match; lia. }
    split; [intros Hk; by destruct (Hok Hk) as (? & ? & ?)|].
    split; [exact Hfail|].
    split; [done|].
    intros _ Hk. by destruct (Hok Hk) as (? & ? & ?).
Qed.

(** * The claims *)

(** [load_params] leaves the optimizer exactly as it was, whatever
    optimizer state the checkpoint holds: the second call of
    [initialize_params] is handed the optimizer but loads the checkpoint's
    optimizer entries into the model. *)
Lemma load_params_keeps_optimizer model_path self fs :
  optimizer (self' (load_params model_path self fs)) = optimizer self.
Proof.
  rewrite load_params_eq.
  destruct (fs !! model_path) as [[|ck]|]; try done.
  by destruct (loadable (ck_optimizer ck) (model_state_dict (model self))).
Qed.


(** C5: [save_best_params] writes a checkpoint if and only if the test
    accuracy is strictly above the best accuracy so far; the checkpoint is
    then the one file named by the epoch, and it holds the model's state
    dict, the optimizer's state dict, the epoch and the accuracy.  On a
    tie nothing is written and the best accuracy stays.  In the epoch
    loop: an epoch that reports the accuracy [acc] writes the checkpoint
    named by the epoch if and only if [acc] is strictly above the best
    accuracy before that epoch, and the checkpoint then holds the state
    the epoch's training left. *)
Theorem save_best_params_writes_iff_better test_acc epoch self fs :
  let r := save_best_params test_acc epoch self fs in
  let best_ck (t : Trainer) (a : float) :=
    {| ck_state_dict := model_state_dict (model t);
       ck_optimizer := optimizer_state_dict (optimizer t);
       ck_epoch := epoch; ck_test_acc := a |} in
  outcome r = inr tt
  /\ (checkpoint_writes (emitted r) <> [] <-> (best_acc self < test_acc)%Qc)
  /\ ((best_acc self < test_acc)%Qc ->
      checkpoint_writes (emitted r) =
        [(best_model_path self, str epoch +:+ ".pth.tar",
          best_ck self test_acc)]
      /\ fs' r !! os_path_join (best_model_path self)
                    (str epoch +:+ ".pth.tar")
         = Some (File (best_ck self test_acc))
      /\ best_acc (self' r) = test_acc)
  /\ (test_acc = best_acc self ->
      checkpoint_writes (emitted r) = [] /\ fs' r = fs
      /\ best_acc (self' r) = best_acc self)
  /\ ((test_acc <= best_acc self)%Qc ->
      checkpoint_writes (emitted r) = [] /\ fs' r = fs
      /\ best_acc (self' r) = best_acc self)
  /\ (forall log_data acc,
       let r1 := run_epoch epoch log_data self fs in
       observed_accs (emitted r1) = [acc] ->
       ((exists path ck,
           (path, str epoch +:+ ".pth.tar", ck)
           ∈ checkpoint_writes (emitted r1))
        <-> (best_acc self < acc)%Qc)
       /\ ((best_acc self < acc)%Qc ->
           (best_model_path self, str epoch +:+ ".pth.tar",
            best_ck (self' r1) acc) ∈ checkpoint_writes (emitted r1))).
Proof.
  cbv zeta.
  assert (Hepoch : forall log_data acc,
    observed_accs (emitted (run_epoch epoch log_data self fs)) = [acc] ->
    ((exists path ck,
        (path, str epoch +:+ ".pth.tar", ck)
        ∈ checkpoint_writes (emitted (run_epoch epoch log_data self fs)))
     <-> (best_acc self < acc)%Qc)
    /\ ((best_acc self < acc)%Qc ->
        (best_model_path self, str epoch +:+ ".pth.tar",
         {| ck_state_dict :=
              model_state_dict
                (model (self' (run_epoch epoch log_data self fs)));
            ck_optimizer :=
              optimizer_state_dict
                (optimizer (self' (run_epoch epoch log_data self fs)));
            ck_epoch := epoch; ck_test_acc := acc |})
        ∈ checkpoint_writes (emitted (run_epoch epoch log_data self fs)))).
  { intros log_data acc.
    destruct (run_epoch_spec epoch log_data self fs)
      as (m & o & [[Heq _] | (acc0 & loss & H)]).
    { rewrite Heq. done. }
    cbv zeta in H. destruct H as (_ & _ & _ & _ & -> & -> & _).
    rewrite <- float_gt_spec.
    unfold observed_accs, checkpoint_writes.
    destruct (float_gt acc0 (best_acc self)) eqn:Hgt.
    - destruct (stores_init self epoch); destruct (wandb_log self); simpl;
        intros [= <-]; rewrite Hgt;
        (split; [split; [done|]; intros _; eexists _, _|intros _];
         apply elem_of_cons; by left).
    - destruct (stores_init self epoch); destruct (wandb_log self); simpl;
        intros [= <-]; rewrite Hgt; (split; [|done]); (split; [|done]);
        intros (path & ck & Hin); exfalso;
        repeat (apply elem_of_cons in Hin as [Hin|Hin];
                [injection Hin as _ Hname _;
                 by destruct (best_name_not_init epoch)|]);
        by apply elem_of_nil in Hin. }
  rewrite save_best_params_eq. cbv zeta.
  destruct (float_gt test_acc (best_acc self)) eqn:Hgt; simpl.
  - pose proof (proj1 (float_gt_spec _ _) Hgt) as Hlt.
    split; [done|]. split; [done|].
    split.
    { intros _. split; [reflexivity|].
      split; [apply lookup_insert_eq|]. simpl.
      unfold py_max. destruct (float_gt (best_acc self) test_acc) eqn:E; [|done].
      apply float_gt_spec in E. exfalso. eapply Qclt_not_le; [exact Hlt|].
      by apply Qclt_le_weak. }
    split. { intros ->. exfalso. by eapply Qclt_not_eq. }
    split. { intros Hle'. exfalso. by eapply Qclt_not_le. }
    exact Hepoch.
  - pose proof (proj1 (float_gt_false _ _) Hgt) as Hle.
    assert (Hmax : py_max test_acc (best_acc self) = best_acc self).
    { unfold py_max.
      destruct (float_gt (best_acc self) test_acc) eqn:E; [done|].
      apply float_gt_false in E. by apply Qcle_antisym. }
    split; [done|].
    split. { split; [done|]. intros Hlt. exfalso. by eapply Qclt_not_le. }
    split. { intros Hlt. exfalso. by eapply Qclt_not_le. }
    split; [by intros|]. split; [by intros|]. exact Hepoch.
Qed.


(** C8: with no training batch [train_one_epoch] raises
    [ZeroDivisionError]; with no label counted (in particular with no test
    batch) [test_one_epoch] raises it; and a [run] that has an epoch to do
    ends with that exception: nothing catches it. *)
Theorem empty_loader_raises self fs :
  (trainloader self = [] ->
     outcome (train_one_epoch self fs) = inl ZeroDivisionError)
  /\ (testloader self = [] -> total_labels (testloader self) = 0%N)
  /\ (total_labels (testloader self) = 0%N ->
     outcome (test_one_epoch self fs) = inl ZeroDivisionError)
  /\ (forall log_data,
        start_epoch self < EPOCHS (config self) ->
        trainloader self = [] \/ total_labels (testloader self) = 0%N ->
        outcome (run log_data self fs) = inl ZeroDivisionError).
Proof.
  split; [|split; [|split]].
  - intros Hnil.
    destruct (train_one_epoch_spec self fs)
      as (m & o & out & -> & [[-> _]|(loss & _ & Hne)]); done.
  - by intros ->.
  - intros Hz.
    destruct (test_one_epoch_spec self fs)
      as (out & -> & [[-> _]|(acc & _ & _ & Hne)]); done.
  - intros log_data Hlt Hempty.
    pose proof (run_summary log_data self fs) as S. cbv zeta in S.
    destruct S as (_ & _ & _ & _ & _ & _ & _ & _ & _ & Hfail & _).
    apply Hfail; [|done].
    rewrite range_cons by done. done.
Qed.


Lemma init_writes_timeline evs :
  init_writes evs = length (List.filter is_init_mark (timeline evs)).
Proof.
  unfold init_writes, timeline.
  induction evs as [|ev evs IH]; [done|].
  destruct ev as [[]| p f ck | | |]; simpl; try exact IH.
  destruct (bool_decide (f = init_weight_file)); simpl; by rewrite IH.
Qed.

Lemma filter_init_mark_epochs eps :
  List.filter is_init_mark (epoch_marks eps) = [].
Proof. induction eps; simpl; done. Qed.

Lemma filter_no_init_marks marks :
  Forall (fun m => is_init_mark m = false) marks ->
  List.filter is_init_mark marks = [].
Proof. induction 1 as [|m marks Hm _ IH]; simpl; [done|]. by rewrite Hm. Qed.

(** C3, amended: a run writes the init-weights checkpoint at most once,
    and not at all when an init-params path is already recorded.  With no
    path recorded and [STORE_PARAM_BEFORE = 0] it is written once, before
    the first epoch of the loop, and holds the state the model and the
    optimizer have when [run] is entered.  With no path recorded and
    [STORE_PARAM_BEFORE <> 0], a run that completes writes it once, right
    after epoch [STORE_PARAM_BEFORE - 1] was trained and tested and
    before the next epoch starts, when that epoch is among
    [range(start_epoch, EPOCHS)], and does not write it otherwise.  The
    snapshot an epoch stores holds the state that epoch's training left
    in the model and the optimizer. *)
Theorem run_writes_init_weights_at_most_once log_data self fs :
  let r := run log_data self fs in
  let spb := STORE_PARAM_BEFORE (config self) in
  let lo := start_epoch self in
  let hi := EPOCHS (config self) in
  (init_writes (emitted r) <= 1)%nat
  /\ (init_params_path self <> "" -> init_writes (emitted r) = 0%nat)
  /\ (init_params_path self = "" -> spb = 0 ->
      init_writes (emitted r) = 1%nat
      /\ (exists marks,
            timeline (emitted r) = InitWrite :: marks
            /\ Forall (fun m => is_init_mark m = false) marks)
      /\ head (checkpoint_writes (emitted r)) =
           Some (dir_prefix self, init_weight_file,
                 {| ck_state_dict := model_state_dict (model self);
                    ck_optimizer := optimizer_state_dict (optimizer self);
                    ck_epoch := spb - 1; ck_test_acc := Q2Qc 0 |})
      /\ epochs_started (emitted r) `prefix_of` range lo hi
      /\ (is_ok r = true ->
          epochs_started (emitted r) = range lo hi
          /\ timeline (emitted r) = InitWrite :: epoch_marks (range lo hi)))
  /\ (init_params_path self = "" -> spb <> 0 -> is_ok r = true ->
      timeline (emitted r) =
        (if decide (lo <= spb - 1 < hi)
         then (epoch_marks (range lo spb)
               ++ InitWrite :: epoch_marks (range spb hi))%list
         else epoch_marks (range lo hi))
      /\ init_writes (emitted r) =
           (if decide (lo <= spb - 1 < hi) then 1%nat else 0%nat))
  /\ (forall e l self0 fs0,
       let r1 := run_epoch e l self0 fs0 in
       init_writes (emitted r1) = 1%nat ->
       STORE_PARAM_BEFORE (config self0) - 1 = e
       /\ timeline (emitted r1) = [EpochStart e; EpochTested; InitWrite]
       /\ (dir_prefix self0, init_weight_file,
           {| ck_state_dict := model_state_dict (model (self' r1));
              ck_optimizer := optimizer_state_dict (optimizer (self' r1));
              ck_epoch := e; ck_test_acc := Q2Qc 0 |})
          ∈ checkpoint_writes (emitted r1)).
Proof.
  cbv zeta.
  pose proof (run_summary log_data self fs) as S. cbv zeta in S.
  destruct S as (_ & _ & Hpre & _ & _ & _ & Hkeep & Hle & Hok & _
                 & Hfirst & Hloop).
  split; [exact Hle|].
  split. { intros Hne. by apply Hkeep, truthy_true. }
  split; [|split].
  - intros Hempty Hspb.
    assert (Hhead : head (checkpoint_writes (emitted (run log_data self fs)))
      = Some (dir_prefix self, init_weight_file,
              {| ck_state_dict := model_state_dict (model self);
                 ck_optimizer := optimizer_state_dict (optimizer self);
                 ck_epoch := STORE_PARAM_BEFORE (config self) - 1;
                 ck_test_acc := Q2Qc 0 |})).
    { rewrite run_eq, Hempty, Hspb. simpl. by rewrite emitted_after. }
    apply truthy_false in Hempty. rewrite Hempty, Hspb in Hfirst.
    destruct (Hfirst eq_refl) as (marks & Htl & Hno & Hdone).
    split.
    { rewrite init_writes_timeline, Htl. simpl.
      by rewrite filter_no_init_marks. }
    split; [by exists marks|]. split; [exact Hhead|]. split; [done|].
    intros Hk. split; [by destruct (Hok Hk)|].
    by rewrite Htl, (Hdone Hk).
  - intros Hempty Hspb Hk.
    apply truthy_false in Hempty. rewrite Hempty in Hloop.
    rewrite bool_decide_eq_false_2 in Hloop by done.
    specialize (Hloop eq_refl Hk).
    rewrite (expected_timeline_range _ _ _ _ eq_refl) in Hloop.
    split; [exact Hloop|].
    rewrite init_writes_timeline, Hloop.
    destruct (decide _).
    + rewrite List.filter_app. simpl.
      by rewrite !filter_init_mark_epochs.
    + by rewrite filter_init_mark_epochs.
  - intros e l self0 fs0 Hone.
    pose proof (run_epoch_summary e l self0 fs0) as S1. cbv zeta in S1.
    destruct S1 as (_ & _ & _ & _ & _ & _ & _ & Htl & Hiw & _).
    rewrite Hiw in Hone.
    destruct (run_epoch_spec e l self0 fs0)
      as (m & o & [[Heq _] | (acc & loss & H)]).
    { rewrite Heq in Hone. done. }
    cbv zeta in H. destruct H as (_ & _ & _ & Hout & Hself & Hem & _).
    assert (Hk : is_ok (run_epoch e l self0 fs0) = true)
      by (unfold is_ok; by rewrite Hout).
    rewrite Hk in Hone, Htl. simpl in Hone.
    destruct (stores_init self0 e) eqn:Hs; [|done].
    split.
    { unfold stores_init in Hs. apply andb_true_iff in Hs as [_ Hs].
      by apply bool_decide_eq_true_1 in Hs. }
    split; [exact Htl|].
    assert (He : STORE_PARAM_BEFORE (config self0) - 1 = e).
    { unfold stores_init in Hs. apply andb_true_iff in Hs as [_ Hs].
      by apply bool_decide_eq_true_1 in Hs. }
    rewrite Hself, Hem, He. unfold checkpoint_writes. simpl.
    destruct (float_gt acc (best_acc self0)); destruct (wandb_log self0);
      simpl; repeat (apply elem_of_cons; (by left) || right).
Qed.

Lemma best_after_ge best accs : (best <= best_after best accs)%Qc.
Proof.
  revert best. induction accs as [|a accs IH]; intros best.
  - apply Qcle_refl.
  - change (best_after best (a :: accs))
      with (best_after (py_max a best) accs).
    eapply Qcle_trans; [|apply IH]. apply py_max_ge_r.
Qed.

Lemma best_after_upper best accs a :
  a ∈ accs -> (a <= best_after best accs)%Qc.
Proof.
  revert best. induction accs as [|a0 accs IH]; intros best Hin.
  - by apply elem_of_nil in Hin.
  - change (best_after best (a0 :: accs))
      with (best_after (py_max a0 best) accs).
    apply elem_of_cons in Hin as [->|Hin].
    + eapply Qcle_trans; [|apply best_after_ge]. apply py_max_ge_l.
    + by apply IH.
Qed.

Lemma best_after_cases best accs :
  best_after best accs = best \/ best_after best accs ∈ accs.
Proof.
  revert best. induction accs as [|a accs IH]; intros best; [by left|].
  change (best_after best (a :: accs))
    with (best_after (py_max a best) accs).
  destruct (IH (py_max a best)) as [Heq|Hin].
  - rewrite Heq. destruct (py_max_cases a best) as [->| ->].
    + right. apply elem_of_cons. by left.
    + by left.
  - right. apply elem_of_cons. by right.
Qed.

(** C4, amended: no epoch lowers [best_acc]; after any number of epochs
    of a run it is at least what it was before; and when the run is over
    (completed or not) it is the maximum of the best accuracy at entry
    and the test accuracies the run observed.  Entered with best accuracy
    0, as [reset] leaves it, a completed run over a non-empty epoch range
    ends with the maximum accuracy observed. *)
Theorem run_best_acc_is_running_maximum log_data self fs :
  let r := run log_data self fs in
  let accs := observed_accs (emitted r) in
  (forall e l self1 fs1,
     (best_acc self1 <= best_acc (self' (run_epoch e l self1 fs1)))%Qc)
  /\ (forall accs1 accs2, accs = (accs1 ++ accs2)%list ->
      (best_acc self <= best_after (best_acc self) accs1)%Qc
      /\ (best_after (best_acc self) accs1 <= best_acc (self' r))%Qc)
  /\ best_acc (self' r) = best_after (best_acc self) accs
  /\ (forall a, a ∈ accs -> (a <= best_acc (self' r))%Qc)
  /\ (best_acc (self' r) = best_acc self \/ best_acc (self' r) ∈ accs)
  /\ (best_acc self = Q2Qc 0 -> is_ok r = true ->
      start_epoch self < EPOCHS (config self) ->
      best_acc (self' r) ∈ accs
      /\ forall a, a ∈ accs -> (a <= best_acc (self' r))%Qc).
Proof.
  cbv zeta.
  pose proof (run_summary log_data self fs) as S. cbv zeta in S.
  destruct S as (_ & _ & _ & _ & Hnn & Hbest & _ & _ & Hok & _).
  split.
  { intros e l self1 fs1.
    pose proof (run_epoch_summary e l self1 fs1) as S1. cbv zeta in S1.
    destruct S1 as (_ & _ & _ & _ & _ & _ & -> & _).
    apply best_after_ge. }
  split.
  { intros accs1 accs2 Happ. split; [apply best_after_ge|].
    rewrite Hbest, Happ, best_after_app. apply best_after_ge. }
  split; [exact Hbest|].
  split. { intros a Ha. rewrite Hbest. by apply best_after_upper. }
  split. { rewrite Hbest. apply best_after_cases. }
  intros Hzero Hk Hlt.
  split; [|intros a Ha; rewrite Hbest; by apply best_after_upper].
  destruct (Hok Hk) as [_ Hlen].
  rewrite range_cons in Hlen by done.
  rewrite Hbest.
  destruct (best_after_cases (best_acc self) (observed_accs (emitted
    (run log_data self fs)))) as [Heq|Hin]; [|done].
  destruct (observed_accs (emitted (run log_data self fs)))
    as [|a accs] eqn:Haccs; [done|].
  rewrite Heq, Hzero.
  assert (a = Q2Qc 0) as ->.
  { apply Qcle_antisym.
    - rewrite <- Hzero, <- Heq. apply best_after_upper, elem_of_cons. by left.
    - by inversion Hnn. }
  apply elem_of_cons. by left.
Qed.

(** The file system a completed [reset] leaves: the output path is made a
    directory unless something is there. *)
Lemma reset_ok_fs dir_prefix0 model_dir0 self fs :
  is_ok (reset dir_prefix0 model_dir0 self fs) = true ->
  let out := os_path_join dir_prefix0 model_dir0 in
  fs' (reset dir_prefix0 model_dir0 self fs) =
  (if os_path_exists fs out then fs else <[out := Dir]> fs).
Proof.
  rewrite reset_eq. cbv zeta. unfold is_ok.
  repeat case_match; simpl; done.
Qed.

Lemma output_path_after (fs : gmap string node) (out : string) :
  let fs2 := if os_path_exists fs out then fs else <[out := Dir]> fs in
  os_path_exists fs2 out = true
  /\ (fs !! out = None -> fs2 !! out = Some Dir)
  /\ (fs !! out = Some Dir -> fs2 !! out = Some Dir)
  /\ (forall ck, fs !! out = Some (File ck) -> fs2 !! out = Some (File ck))
  /\ (forall p, p <> out -> fs2 !! p = fs !! p).
Proof.
  cbv zeta. destruct (os_path_exists fs out) eqn:Hex.
  - split; [done|]. split; [|by repeat split].
    intros Hnone. apply bool_decide_eq_true_1 in Hex.
    rewrite Hnone in Hex. by destruct Hex.
  - assert (Hnone : fs !! out = None).
    { apply bool_decide_eq_false_1 in Hex.
      destruct (fs !! out); [|done]. destruct Hex. by eexists. }
    rewrite lookup_insert_eq, Hnone.
    split; [apply bool_decide_eq_true_2; rewrite lookup_insert_eq; by eexists|].
    repeat split; try done. intros p Hp. by rewrite lookup_insert_ne.
Qed.

(** C9, amended: when [reset] completes, the best accuracy is 0; the
    start epoch is 0 if no init-params path is recorded and
    [PRUNE_START_FROM] if one is (the init params are then re-loaded and
    [load_init_params] sets the start epoch); the optimizer and the
    scheduler are the ones built from the config; and the output path
    exists: a directory that was there is still there, a directory is
    made when nothing was there, and a regular file that was there is
    left in place as the output path. *)
Theorem reset_completes dir_prefix0 model_dir0 self fs
    (Hok : is_ok (reset dir_prefix0 model_dir0 self fs) = true) :
  let r := reset dir_prefix0 model_dir0 self fs in
  let out := os_path_join dir_prefix0 model_dir0 in
  best_acc (self' r) = Q2Qc 0
  /\ start_epoch (self' r) =
       (if truthy (init_params_path self)
        then PRUNE_START_FROM (config self) else 0)
  /\ optimizer (self' r) =
       SGD (LR (config self)) (MOMENTUM (config self))
           (WEIGHT_DECAY (config self))
  /\ lr_scheduler (self' r) =
       {| warmup_epochs := WARMUP_EPOCHS (config self);
          epochs := EPOCHS (config self);
          start_lr := START_LR (config self);
          target_lr := LR (config self) |}
  /\ (init_params_path self <> "" ->
      exists ck,
        fs !! init_params_path self = Some (File ck)
        /\ model (self' r) = loaded_model self ck
        /\ emitted r = [Print (MsgLoadedParameters (init_params_path self))])
  /\ (init_params_path self = "" ->
      model (self' r) = model self /\ emitted r = [])
  /\ best_model_path (self' r) = out
  /\ os_path_exists (fs' r) out = true
  /\ (fs !! out = None -> fs' r !! out = Some Dir)
  /\ (fs !! out = Some Dir -> fs' r !! out = Some Dir)
  /\ (forall ck, fs !! out = Some (File ck) -> fs' r !! out = Some (File ck))
  /\ (forall p, p <> out -> fs' r !! p = fs !! p).
Proof.
  cbv zeta. rewrite (reset_ok_fs _ _ _ _ Hok). cbv zeta.
  pose proof (output_path_after fs (os_path_join dir_prefix0 model_dir0))
    as Hout. cbv zeta in Hout.
  revert Hok. rewrite reset_eq. cbv zeta. unfold is_ok.
  destruct (truthy (init_params_path self)) eqn:Htr.
  - destruct (fs !! init_params_path self) as [[|ck]|] eqn:Hfile;
      [done| |done].
    destruct (loadable (ck_optimizer ck) (model_state_dict (model self)));
      [|done].
    intros Hok.
    assert (Hpath : init_params_path self <> "") by (by apply truthy_true).
    repeat case_match; simpl in *; try done;
      (do 4 (split; [done|]); split; [by intros _; exists ck|];
       split; [done|]; split; [done|]; exact Hout).
  - intros Hok.
    assert (Hpath : init_params_path self = "") by (by apply truthy_false).
    repeat case_match; simpl in *; try done;
      (do 4 (split; [done|]); split; [done|];
       split; [done|]; split; [done|]; exact Hout).
Qed.

Lemma reset_keeps_path dir_prefix0 model_dir0 self fs :
  init_params_path (self' (reset dir_prefix0 model_dir0 self fs)) =
  init_params_path self.
Proof. rewrite reset_eq. cbv zeta. by repeat case_match. Qed.

Lemma do_call_keeps_path c self fs :
  init_params_path self <> "" ->
  init_params_path (do_call c (self, fs)).1 = init_params_path self.
Proof.
  intros Hrec. destruct c; unfold do_call; cbv zeta; cbn [fst].
  - apply reset_keeps_path.
  - pose proof (run_summary log_data self fs) as S. cbv zeta in S.
    destruct S as (_ & _ & _ & _ & _ & _ & Hkeep & _).
    by apply Hkeep, truthy_true.
  - rewrite load_params_eq. by repeat case_match.
  - rewrite load_init_params_eq. by repeat case_match.
  - rewrite save_best_params_eq. cbv zeta.
    by destruct (float_gt test_acc (best_acc self)).
  - by destruct (train_one_epoch_spec self fs) as (m & o & out & -> & _).
  - by destruct (test_one_epoch_spec self fs) as (out & -> & _).
Qed.

(** ** The snapshot file is not written again *)

Lemma keeps_snapshots_refl fs : keeps_snapshots fs fs.
Proof. by intros d ck. Qed.

Lemma keeps_snapshots_trans fs1 fs2 fs3 :
  keeps_snapshots fs1 fs2 -> keeps_snapshots fs2 fs3 ->
  keeps_snapshots fs1 fs3.
Proof. intros H12 H23 d ck H. by apply H23, H12. Qed.

Lemma keeps_snapshots_best fs a epoch ck :
  keeps_snapshots fs
    (<[os_path_join a (str epoch +:+ ".pth.tar") := File ck]> fs).
Proof.
  intros d ck0 H. rewrite lookup_insert_ne; [done|].
  apply best_path_not_init_path.
Qed.

Lemma keeps_snapshots_mkdir fs out :
  os_path_exists fs out = false ->
  keeps_snapshots fs (<[out := Dir]> fs).
Proof.
  intros Hex d ck H. rewrite lookup_insert_ne; [done|].
  intros Heq. apply bool_decide_eq_false_1 in Hex. apply Hex.
  rewrite Heq, H. by eexists.
Qed.

Lemma fs_after {A} evs (r : Res A) : fs' (after evs r) = fs' r.
Proof. by destruct r. Qed.

Lemma run_epoch_keeps_snapshots e log_data self fs :
  truthy (init_params_path self) = true ->
  keeps_snapshots fs (fs' (run_epoch e log_data self fs)).
Proof.
  intros Htr.
  destruct (run_epoch_spec e log_data self fs)
    as (m & o & [[Heq _] | (acc & loss & H)]).
  - rewrite Heq. apply keeps_snapshots_refl.
  - cbv zeta in H. destruct H as (_ & _ & _ & _ & _ & _ & ->).
    unfold stores_init. rewrite Htr. simpl.
    destruct (float_gt acc (best_acc self)).
    + apply keeps_snapshots_best.
    + apply keeps_snapshots_refl.
Qed.

Lemma run_epochs_keeps_snapshots eps : forall log_data self fs,
  truthy (init_params_path self) = true ->
  keeps_snapshots fs (fs' (run_epochs eps log_data self fs)).
Proof.
  induction eps as [|e rest IH]; intros log_data self fs Htr.
  { apply keeps_snapshots_refl. }
  rewrite run_epochs_cons.
  pose proof (run_epoch_keeps_snapshots e log_data self fs Htr) as Hk.
  pose proof (run_epoch_summary e log_data self fs) as S1. cbv zeta in S1.
  destruct S1 as (_ & _ & _ & _ & _ & _ & _ & _ & _ & Hpath).
  unfold stores_init in Hpath. rewrite Htr in Hpath.
  rewrite andb_false_r in Hpath.
  destruct (run_epoch e log_data self fs) as [[x|log_data1] self1 fs1 evs1];
    simpl in *; [done|].
  rewrite fs_after. eapply keeps_snapshots_trans; [exact Hk|].
  apply IH. by rewrite Hpath.
Qed.

Lemma run_keeps_snapshots log_data self fs :
  truthy (init_params_path self) = true ->
  keeps_snapshots fs (fs' (run log_data self fs)).
Proof.
  intros Htr. rewrite run_eq, Htr. simpl.
  by apply run_epochs_keeps_snapshots.
Qed.

Lemma reset_keeps_snapshots dir_prefix0 model_dir0 self fs :
  keeps_snapshots fs (fs' (reset dir_prefix0 model_dir0 self fs)).
Proof.
  rewrite reset_eq. cbv zeta.
  repeat case_match; simpl;
    (apply keeps_snapshots_refl || by apply keeps_snapshots_mkdir).
Qed.

Lemma do_call_keeps_snapshots c self fs :
  truthy (init_params_path self) = true ->
  keeps_snapshots fs (do_call c (self, fs)).2.
Proof.
  intros Htr. destruct c; unfold do_call; cbv zeta; cbn [snd].
  - apply reset_keeps_snapshots.
  - by apply run_keeps_snapshots.
  - rewrite load_params_eq. repeat case_match; apply keeps_snapshots_refl.
  - rewrite load_init_params_eq.
    repeat case_match; apply keeps_snapshots_refl.
  - rewrite save_best_params_eq. cbv zeta.
    destruct (float_gt test_acc (best_acc self)).
    + apply keeps_snapshots_best.
    + apply keeps_snapshots_refl.
  - destruct (train_one_epoch_spec self fs) as (m & o & out & -> & _).
    apply keeps_snapshots_refl.
  - destruct (test_one_epoch_spec self fs) as (out & -> & _).
    apply keeps_snapshots_refl.
Qed.

Lemma do_calls_keep_snapshot cs : forall self fs,
  init_params_path self <> "" ->
  init_params_path (do_calls cs (self, fs)).1 = init_params_path self
  /\ keeps_snapshots fs (do_calls cs (self, fs)).2.
Proof.
  induction cs as [|c cs IH]; intros self fs Hrec.
  { split; [done|apply keeps_snapshots_refl]. }
  change (do_calls (c :: cs) (self, fs))
    with (do_calls cs (do_call c (self, fs))).
  pose proof (do_call_keeps_path c self fs Hrec) as Hc.
  pose proof (do_call_keeps_snapshots c self fs
                (proj2 (truthy_true _) Hrec)) as Hs.
  destruct (do_call c (self, fs)) as [self1 fs1]. simpl in Hc, Hs.
  destruct (IH self1 fs1) as [Hp Hk]; [by rewrite Hc|].
  split; [by rewrite Hp|]. by eapply keeps_snapshots_trans.
Qed.


(** * Further properties of the trainer *)

(** ** Construction *)

(** X1: the object a constructor call returns.  It has no init-params
    path, start epoch 0, best accuracy 0, the optimizer and scheduler of
    the config and the given model; its output path exists afterwards,
    nothing else in the file system has changed, and [wandb.init] is
    called exactly when logging is on.  [os.mkdir] can fail, so the
    property is stated for a call that returns. *)
Theorem init_gives_fresh_trainer model0 trainloader0 testloader0 config0
    dir_prefix0 model_dir0 wandb_log0 fs
    (Hok : is_ok (init model0 trainloader0 testloader0 config0 dir_prefix0
                    model_dir0 wandb_log0 fs) = true) :
  let r := init model0 trainloader0 testloader0 config0 dir_prefix0
             model_dir0 wandb_log0 fs in
  let out := os_path_join dir_prefix0 model_dir0 in
  init_params_path (self' r) = ""
  /\ start_epoch (self' r) = 0
  /\ best_acc (self' r) = Q2Qc 0
  /\ model (self' r) = model0
  /\ optimizer (self' r) =
       SGD (LR config0) (MOMENTUM config0) (WEIGHT_DECAY config0)
  /\ lr_scheduler (self' r) =
       {| warmup_epochs := WARMUP_EPOCHS config0; epochs := EPOCHS config0;
          start_lr := START_LR config0; target_lr := LR config0 |}
  /\ dir_prefix (self' r) = dir_prefix0
  /\ best_model_path (self' r) = out
  /\ os_path_exists (fs' r) out = true
  /\ (forall p, p <> out -> fs' r !! p = fs !! p)
  /\ emitted r = (if wandb_log0 then [WandbInit] else []).
Proof.
  cbv zeta. revert Hok. unfold init. unfold_M. rewrite reset_eq.
  cbv zeta. simpl.
  pose proof (output_path_after fs (os_path_join dir_prefix0 model_dir0))
    as Hout. cbv zeta in Hout. destruct Hout as (Hex' & _ & _ & _ & Hother).
  unfold is_ok.
  destruct (os_path_exists fs (os_path_join dir_prefix0 model_dir0)) eqn:Hex;
    [|destruct (mkdir_error fs (os_path_join dir_prefix0 model_dir0))];
    destruct wandb_log0; simpl; intros Hok; try done; repeat split; done.
Qed.

(** ** Loading *)

(** The optimizer's state dict has two entries, neither a tensor. *)
Lemma lookup_optimizer_state_dict (o : Optimizer OptState) (k : string) :
  optimizer_state_dict o !! k =
  if decide (k = "state") then Some (PyOptState (state o))
  else if decide (k = "param_groups")
       then Some (PyParamGroups [param_groups o])
       else None.
Proof.
  unfold optimizer_state_dict.
  destruct (decide (k = "state")) as [->|Hk1]; [by rewrite lookup_insert_eq|].
  rewrite lookup_insert_ne by done.
  destruct (decide (k = "param_groups")) as [->|Hk2];
    [by rewrite lookup_insert_eq|].
  by rewrite lookup_insert_ne, lookup_empty.
Qed.

Lemma copy_optimizer_state_dict (o : Optimizer OptState)
    (own : gmap string Tensor) :
  copy_tensors (optimizer_state_dict o) own = own.
Proof.
  apply map_eq. intros k.
  rewrite lookup_copy_tensors, lookup_optimizer_state_dict.
  destruct (own !! k); [|done]. simpl. by repeat case_match.
Qed.



(** X3: a missing checkpoint file.  When the path holds no checkpoint,
    [load_params] and [load_init_params] raise and leave the object and
    the file system untouched and print nothing; in particular
    [load_init_params] does not move the start epoch. *)
Theorem load_without_file_changes_nothing path self fs
    (Hmissing : forall ck, fs !! path <> Some (File ck)) :
  let r := load_params path self fs in
  let r_init := load_init_params path self fs in
  (outcome r = inl (FileNotFoundError path)
   \/ outcome r = inl (IsADirectoryError path))
  /\ self' r = self /\ fs' r = fs /\ emitted r = []
  /\ outcome r_init = outcome r
  /\ self' r_init = self /\ fs' r_init = fs /\ emitted r_init = [].
Proof.
  cbv zeta. rewrite load_init_params_eq, load_params_eq.
  destruct (fs !! path) as [[|ck]|] eqn:Hfile; simpl.
  - repeat split; auto.
  - by destruct (Hmissing ck).
  - repeat split; auto.
Qed.


(** ** Resetting *)

(** X5: a [reset] that cannot load the recorded snapshot.  It raises after
    the first assignments were made: the directories, the start epoch, the
    best accuracy, the optimizer and the scheduler are already reset, but
    the best-model path still is the old one and no output directory is
    created. *)
Theorem reset_without_snapshot_file dir_prefix0 model_dir0 self fs
    (Hrec : init_params_path self <> "")
    (Hmissing : forall ck, fs !! init_params_path self <> Some (File ck)) :
  let r := reset dir_prefix0 model_dir0 self fs in
  (outcome r = inl (FileNotFoundError (init_params_path self))
   \/ outcome r = inl (IsADirectoryError (init_params_path self)))
  /\ fs' r = fs /\ emitted r = []
  /\ dir_prefix (self' r) = dir_prefix0
  /\ model_dir (self' r) = model_dir0
  /\ start_epoch (self' r) = 0
  /\ best_acc (self' r) = Q2Qc 0
  /\ optimizer (self' r) =
       SGD (LR (config self)) (MOMENTUM (config self))
           (WEIGHT_DECAY (config self))
  /\ lr_scheduler (self' r) =
       {| warmup_epochs := WARMUP_EPOCHS (config self);
          epochs := EPOCHS (config self);
          start_lr := START_LR (config self);
          target_lr := LR (config self) |}
  /\ model (self' r) = model self
  /\ best_model_path (self' r) = best_model_path self
  /\ init_params_path (self' r) = init_params_path self.
Proof.
  cbv zeta. rewrite reset_eq. cbv zeta.
  rewrite (proj2 (truthy_true _) Hrec).
  destruct (fs !! init_params_path self) as [[|ck]|] eqn:Hfile; simpl.
  - repeat split; auto.
  - by destruct (Hmissing ck).
  - repeat split; auto.
Qed.

(** Loading twice from the same two dicts changes nothing the second
    time. *)
Lemma copy_tensors_twice (d1 d2 : gmap string value)
    (own : gmap string Tensor) :
  copy_tensors d2 (copy_tensors d1 (copy_tensors d2 (copy_tensors d1 own)))
  = copy_tensors d2 (copy_tensors d1 own).
Proof.
  apply map_eq. intros k. rewrite !lookup_copy_tensors.
  destruct (own !! k) as [t|]; [|done]. simpl.
  by destruct (d2 !! k) as [[]|], (d1 !! k) as [[]|].
Qed.

Lemma trainer_ext (a b : Trainer) :
  model a = model b -> trainloader a = trainloader b ->
  testloader a = testloader b -> config a = config b ->
  wandb_log a = wandb_log b -> init_params_path a = init_params_path b ->
  dir_prefix a = dir_prefix b -> model_dir a = model_dir b ->
  start_epoch a = start_epoch b -> best_acc a = best_acc b ->
  optimizer a = optimizer b -> lr_scheduler a = lr_scheduler b ->
  best_model_path a = best_model_path b -> a = b.
Proof. destruct a, b. simpl. intros. by subst. Qed.

(** Loading a checkpoint into a model that was just loaded from it changes
    no parameter. *)
Lemma loaded_again self1 self2 ck :
  model self2 = loaded_model self1 ck ->
  loaded_model self2 ck = loaded_model self1 ck.
Proof.
  unfold loaded_model. intros ->. simpl. f_equal.
  apply copy_tensors_twice.
Qed.

#[local] Arguments loaded_model : simpl never.

(** What a completed [reset] has done. *)
Lemma reset_ok_inv dir_prefix0 model_dir0 self fs :
  is_ok (reset dir_prefix0 model_dir0 self fs) = true ->
  let self1 := reset_start dir_prefix0 model_dir0 self in
  let out := os_path_join dir_prefix0 model_dir0 in
  let fs2 := if os_path_exists fs out then fs else <[out := Dir]> fs in
  (truthy (init_params_path self) = false
   /\ reset dir_prefix0 model_dir0 self fs =
      mkRes (inr tt) (set_best_model_path self1 out) fs2 [])
  \/ (exists ck,
        truthy (init_params_path self) = true
        /\ fs !! init_params_path self = Some (File ck)
        /\ loadable (ck_optimizer ck) (model_state_dict (model self)) = true
        /\ reset dir_prefix0 model_dir0 self fs =
           mkRes (inr tt)
             (set_best_model_path
                (set_start_epoch (loaded self1 ck)
                   (PRUNE_START_FROM (config self))) out)
             fs2 [Print (MsgLoadedParameters (init_params_path self))]).
Proof.
  rewrite reset_eq. cbv zeta. unfold is_ok.
  destruct (truthy (init_params_path self)) eqn:Htr.
  - destruct (fs !! init_params_path self) as [[|ck]|] eqn:Hfile;
      [done| |done].
    destruct (loadable (ck_optimizer ck) (model_state_dict (model self)))
      eqn:Hload; [|done].
    destruct (os_path_exists fs (os_path_join dir_prefix0 model_dir0));
      [|destruct (mkdir_error fs (os_path_join dir_prefix0 model_dir0))];
      simpl; intros Hok; try done; right; by exists ck.
  - destruct (os_path_exists fs (os_path_join dir_prefix0 model_dir0));
      [|destruct (mkdir_error fs (os_path_join dir_prefix0 model_dir0))];
      simpl; intros Hok; try done; by left.
Qed.

(** X6: [reset] is idempotent.  When a [reset] completes, the same
    [reset] again completes with the same object, the same file system
    and the same output: loading the snapshot a second time changes no
    parameter, and the output directory is not created twice. *)
Theorem reset_twice_is_reset dir_prefix0 model_dir0 self fs
    (Hok : is_ok (reset dir_prefix0 model_dir0 self fs) = true) :
  let r := reset dir_prefix0 model_dir0 self fs in
  reset dir_prefix0 model_dir0 (self' r) (fs' r) =
  mkRes (inr tt) (self' r) (fs' r) (emitted r).
Proof.
  cbv zeta.
  pose proof (output_path_after fs (os_path_join dir_prefix0 model_dir0))
    as Hout. cbv zeta in Hout. destruct Hout as (Hex & _ & _ & _ & Hother).
  assert (Hkeep : forall p n, fs !! p = Some n ->
    (if os_path_exists fs (os_path_join dir_prefix0 model_dir0) then fs
     else <[os_path_join dir_prefix0 model_dir0 := Dir]> fs) !! p = Some n).
  { intros p n Hp.
    destruct (decide (p = os_path_join dir_prefix0 model_dir0)) as [->|Hne];
      [|by rewrite Hother].
    destruct (os_path_exists fs _) eqn:E; [done|].
    apply bool_decide_eq_false_1 in E. destruct E. by eexists. }
  destruct (reset_ok_inv _ _ _ _ Hok)
    as [[Htr Heq]|(ck & Htr & Hfile & Hload & Heq)];
    cbv zeta in Heq; rewrite Heq; cbn [self' fs' emitted];
    rewrite reset_eq; cbv zeta.
  - cbn [init_params_path set_best_model_path reset_start].
    rewrite Htr, Hex. reflexivity.
  - assert (Hload2 : loadable (ck_optimizer ck)
      (model_state_dict
         (loaded_model (reset_start dir_prefix0 model_dir0 self) ck)) = true).
    { unfold loaded_model. cbn [model_state_dict model reset_start].
      rewrite (loadable_dom _ _ (model_state_dict (model self)));
        [done|by rewrite !dom_copy_tensors]. }
    cbn [init_params_path set_best_model_path set_start_epoch set_model
         loaded model config reset_start].
    rewrite Htr, (Hkeep _ _ Hfile), Hload2, Hex.
    f_equal. apply trainer_ext; try reflexivity.
    cbn [model set_best_model_path set_start_epoch set_model loaded].
    apply loaded_again. reflexivity.
Qed.

(** ** A run with nothing to do *)

(** X7: when the start epoch is not below [EPOCHS] (a finished training
    resumed, a pruning start beyond the last epoch), [run] returns
    without entering an epoch: no training, no test, the model, the
    optimizer and the best accuracy are as before.  It still stores the
    initial weights when none are recorded and [STORE_PARAM_BEFORE] is
    0, and writes nothing otherwise. *)
Theorem run_with_no_epoch_left log_data self fs
    (Hdone : EPOCHS (config self) <= start_epoch self) :
  let r := run log_data self fs in
  let store :=
    negb (truthy (init_params_path self))
    && bool_decide (STORE_PARAM_BEFORE (config self) = 0) in
  outcome r = inr tt
  /\ epochs_started (emitted r) = []
  /\ observed_accs (emitted r) = []
  /\ model (self' r) = model self
  /\ optimizer (self' r) = optimizer self
  /\ best_acc (self' r) = best_acc self
  /\ (store = true ->
      init_writes (emitted r) = 1%nat
      /\ init_params_path (self' r) =
           os_path_join (dir_prefix self) init_weight_file
      /\ exists ck,
           fs' r !! init_params_path (self' r) = Some (File ck)
           /\ ck_state_dict ck = model_state_dict (model self))
  /\ (store = false -> self' r = self /\ fs' r = fs /\ emitted r = []).
Proof.
  cbv zeta. rewrite run_eq, (range_nil _ _ Hdone). cbv zeta.
  destruct (negb (truthy (init_params_path self))
            && bool_decide (STORE_PARAM_BEFORE (config self) = 0)).
  - simpl. do 6 (split; [done|]). split; [|done].
    intros _. split; [done|]. split; [done|].
    eexists. split; [apply lookup_insert_eq|done].
  - simpl. by repeat split.
Qed.

(** ** Evaluation *)

Lemma test_batches_correct params batches : forall correct total,
  fst (test_batches params batches correct total) =
  (correct + total_correct params batches)%N.
Proof.
  induction batches as [|data rest IH]; intros correct total; simpl.
  - lia.
  - rewrite IH. lia.
Qed.

Lemma total_correct_le params batches :
  (forall data, data ∈ batches ->
     (num_correct params data <= labels_size data)%N) ->
  (total_correct params batches <= total_labels batches)%N.
Proof.
  induction batches as [|data rest IH]; intros Hle; simpl; [lia|].
  pose proof (Hle data (list_elem_of_here _ _)).
  assert (total_correct params rest <= total_labels rest)%N.
  { apply IH. intros d Hd. apply Hle. by apply list_elem_of_further. }
  lia.
Qed.

Lemma percent_le_100 (correct total : N) :
  total <> 0%N -> (correct <= total)%N ->
  (Q2Qc 100 * Qc_of_Z (Z.of_N correct) / Qc_of_Z (Z.of_N total)
   <= Q2Qc 100)%Qc.
Proof.
  intros Hne Hle. unfold Qcle. unfold Qcdiv, Qcmult, Qcinv. simpl.
  rewrite !Qred_correct.
  destruct total as [|t]; [done|]. simpl.
  unfold Qle, Qmult, Qinv, inject_Z. simpl. lia.
Qed.

Lemma fl_small (z : Z) :
  0 <= z -> z <= 2 ^ 53 -> fl (Qc_of_Z z) = Qc_of_Z z.
Proof. intros H0 H1. apply fl_int. by rewrite Z.abs_eq. Qed.

(** The rounded accuracy is at most 100 when the counts are exact in
    double precision. *)
Lemma test_acc_le_100 (correct total : N) :
  total <> 0%N -> (correct <= total)%N ->
  100 * Z.of_N total <= 2 ^ 53 ->
  (float_div (float_mul (Q2Qc 100) (float_of_int (Z.of_N correct)))
     (float_of_int (Z.of_N total)) <= Q2Qc 100)%Qc.
Proof.
  intros Hne Hle Hsmall.
  assert (H100 : Q2Qc 100 = Qc_of_Z 100) by (by apply Qc_is_canon).
  unfold float_div, float_mul, float_of_int.
  rewrite (fl_small (Z.of_N correct)), (fl_small (Z.of_N total)) by lia.
  assert (Hprod : (Q2Qc 100 * Qc_of_Z (Z.of_N correct))%Qc
                  = Qc_of_Z (100 * Z.of_N correct)).
  { by rewrite Z2Qc_inj_mul, H100. }
  rewrite Hprod, fl_small, <- Hprod by lia.
  assert (Hfl100 : fl (Q2Qc 100) = Q2Qc 100)
    by (rewrite H100; apply fl_small; lia).
  eapply Qcle_trans; [apply fl_mono, percent_le_100; done|].
  rewrite Hfl100. apply Qcle_refl.
Qed.

(** X8: evaluation has no side effect on what was learned.
    [test_one_epoch] only switches the model to evaluation mode: the
    parameters, the optimizer and the file system are unchanged and
    nothing is printed.  The accuracy it returns is the double that
    [100.0 * correct / total] computes over all batches, the product and
    the quotient each rounded; it is never negative, and at most 100
    when no batch has more correct predictions than labels and
    [100 * total] is within the integers doubles represent exactly. *)
Theorem test_one_epoch_only_evaluates self fs :
  let r := test_one_epoch self fs in
  let params := model_state_dict (model self) in
  let correct := Z.of_N (total_correct params (testloader self)) in
  let total := Z.of_N (total_labels (testloader self)) in
  self' r = set_model self {| model_state_dict := params; training := false |}
  /\ fs' r = fs /\ emitted r = []
  /\ forall acc, outcome r = inr acc ->
       acc = float_div (float_mul (Q2Qc 100) (float_of_int correct))
               (float_of_int total)
       /\ (Q2Qc 0 <= acc)%Qc
       /\ ((forall data, data ∈ testloader self ->
              (num_correct params data <= labels_size data)%N) ->
           100 * total <= 2 ^ 53 ->
           (acc <= Q2Qc 100)%Qc).
Proof.
  cbv zeta. unfold test_one_epoch. unfold_M. simpl.
  pose proof (test_batches_spec (model_state_dict (model self))
                (testloader self) 0%N 0%N) as Htot.
  pose proof (test_batches_correct (model_state_dict (model self))
                (testloader self) 0%N 0%N) as Hcor.
  destruct (test_batches _ _ _ _) as [correct total]. simpl in Htot, Hcor.
  rewrite N.add_0_l in Htot, Hcor. subst correct total.
  destruct (decide (total_labels (testloader self) = 0%N)) as [Hz|Hnz]; simpl.
  - by repeat split.
  - do 3 (split; [done|]). intros acc [= <-].
    split; [done|]. split; [apply test_acc_nonneg|].
    intros Hle Hsmall. apply test_acc_le_100; [done| |done].
    by apply total_correct_le.
Qed.

(** ** What a run writes and logs *)

#[local] Arguments checkpoint_writes : simpl never.
#[local] Arguments best_writes : simpl never.
#[local] Arguments logged : simpl never.
#[local] Arguments apply_writes : simpl never.

Lemma checkpoint_writes_app evs1 evs2 :
  checkpoint_writes (evs1 ++ evs2)%list =
  (checkpoint_writes evs1 ++ checkpoint_writes evs2)%list.
Proof. apply omap_app. Qed.

Lemma best_writes_app evs1 evs2 :
  best_writes (evs1 ++ evs2)%list =
  (best_writes evs1 ++ best_writes evs2)%list.
Proof. apply omap_app. Qed.

Lemma logged_app evs1 evs2 :
  logged (evs1 ++ evs2)%list = (logged evs1 ++ logged evs2)%list.
Proof. apply omap_app. Qed.

Lemma apply_writes_app ws1 ws2 fs :
  apply_writes (ws1 ++ ws2)%list fs = apply_writes ws2 (apply_writes ws1 fs).
Proof. apply fold_left_app. Qed.

Lemma py_max_gt (a b : float) : float_gt a b = true -> py_max a b = a.
Proof.
  intros Hgt. unfold py_max. destruct (float_gt b a) eqn:E; [|done].
  apply float_gt_spec in Hgt, E. exfalso.
  eapply Qclt_not_le; [exact Hgt|]. by apply Qclt_le_weak.
Qed.

Lemma py_max_le (a b : float) : float_gt a b = false -> py_max a b = b.
Proof.
  intros Hle. unfold py_max. destruct (float_gt b a) eqn:E; [done|].
  apply float_gt_false in Hle, E. by apply Qcle_antisym.
Qed.

(** What one epoch reports. *)
Lemma run_epoch_reports e log_data self fs :
  let r := run_epoch e log_data self fs in
  fs' r = apply_writes (checkpoint_writes (emitted r)) fs
  /\ ((best_writes (emitted r) = [] /\ best_acc (self' r) = best_acc self)
      \/ (exists ck, best_writes (emitted r) = [ck]
                     /\ (best_acc self < ck_test_acc ck)%Qc
                     /\ best_acc (self' r) = ck_test_acc ck
                     /\ ck_epoch ck = e))
  /\ match outcome r with
     | inl _ =>
         logged (emitted r) = [] /\ observed_accs (emitted r) = []
         /\ best_writes (emitted r) = []
         /\ best_acc (self' r) = best_acc self
     | inr log_data1 =>
         exists acc loss,
           observed_accs (emitted r) = [acc]
           /\ if wandb_log self
              then logged (emitted r) = [log_data1]
                   /\ log_data1 =
                        <["lr" := scheduled_lr (lr_scheduler self) e]>
                          (<["loss" := loss]> (<["acc" := acc]> log_data))
              else logged (emitted r) = [] /\ log_data1 = log_data
     end.
Proof.
  cbv zeta.
  destruct (run_epoch_spec e log_data self fs)
    as (m & o & [[Heq _] | (acc & loss & H)]).
  { rewrite Heq. cbn [fs' emitted self' outcome]. split; [done|].
    split; [by left|]. done. }
  cbv zeta in H.
  destruct H as (_ & _ & _ & Hout & Hself & Hem & Hfs).
  rewrite Hout, Hself, Hem, Hfs. clear Hout Hself Hem Hfs.
  unfold checkpoint_writes, best_writes, logged, observed_accs, apply_writes.
  destruct (float_gt acc (best_acc self)) eqn:Hgt.
  - pose proof (py_max_gt _ _ Hgt) as Hmax.
    apply float_gt_spec in Hgt.
    destruct (stores_init self e); destruct (wandb_log self); simpl;
      rewrite ?(bool_decide_eq_false_2 _ (best_name_not_init e)); simpl;
      (split; [done|]); (split; [right; eexists; by repeat split|]);
      by exists acc, loss.
  - pose proof (py_max_le _ _ Hgt) as Hmax.
    destruct (stores_init self e); destruct (wandb_log self); simpl;
      (split; [done|]); (split; [by left|]);
      by exists acc, loss.
Qed.

Lemma last_cons {A} (a d : A) (l : list A) : List.last (a :: l) d = List.last l a.
Proof.
  revert a d. induction l as [|b l IH]; intros a d; [done|].
  change (List.last (a :: b :: l) d) with (List.last (b :: l) d).
  by rewrite !IH.
Qed.

Lemma run_epochs_reports eps : forall log_data self fs,
  let r := run_epochs eps log_data self fs in
  let cks := best_writes (emitted r) in
  fs' r = apply_writes (checkpoint_writes (emitted r)) fs
  /\ Forall (fun ck => (best_acc self < ck_test_acc ck)%Qc
                       /\ ck_epoch ck ∈ eps) cks
  /\ StronglySorted Qclt (map ck_test_acc cks)
  /\ best_acc (self' r) = List.last (map ck_test_acc cks) (best_acc self)
  /\ (wandb_log self = false -> logged (emitted r) = [])
  /\ (wandb_log self = true ->
      map (fun l => l !! "acc") (logged (emitted r))
      = map Some (observed_accs (emitted r)))
  /\ Forall (fun l =>
       is_Some (l !! "acc") /\ is_Some (l !! "loss") /\ is_Some (l !! "lr")
       /\ forall k, k <> "acc" -> k <> "loss" -> k <> "lr" ->
                    l !! k = log_data !! k) (logged (emitted r)).
Proof.
  induction eps as [|e rest IH]; intros log_data self fs.
  { cbv zeta. simpl. repeat split; try done; constructor. }
  cbv zeta. rewrite run_epochs_cons.
  pose proof (run_epoch_reports e log_data self fs) as R1.
  pose proof (run_epoch_summary e log_data self fs) as S1.
  cbv zeta in R1, S1.
  destruct S1 as (Hset & _).
  destruct (run_epoch e log_data self fs) as [[x|log_data1] self1 fs1 evs1].
  - (* the epoch raised *)
    cbn [fs' self' emitted outcome] in *.
    destruct R1 as (Hfs & _ & Hlog & Hacc & Hnone & Hsame).
    split; [done|].
    rewrite Hnone, Hlog, Hacc. simpl.
    repeat split; try done; constructor.
  - specialize (IH log_data1 self1 fs1). cbv zeta in IH.
    destruct IH as (Hfs2 & Hall2 & Hsort2 & Hbest2 & Hoff2 & Hon2 & Hkeys2).
    cbn [fs' self' emitted outcome] in R1, Hset.
    destruct R1 as (Hfs & Hbest & acc & loss & Hacc & Hlog).
    assert (Hwl : wandb_log self1 = wandb_log self)
      by (unfold same_setup in Hset; by destruct_and!).
    rewrite fs_after, self_after, emitted_after.
    rewrite checkpoint_writes_app, best_writes_app, logged_app,
      observed_accs_app, apply_writes_app, !map_app, <- Hfs.
    split; [done|].
    assert (Hstep :
      Forall (fun ck => (best_acc self < ck_test_acc ck)%Qc
                        /\ ck_epoch ck ∈ e :: rest)
        (best_writes evs1 ++ best_writes (emitted
           (run_epochs rest log_data1 self1 fs1)))
      /\ StronglySorted Qclt
           (map ck_test_acc (best_writes evs1) ++
            map ck_test_acc (best_writes (emitted
              (run_epochs rest log_data1 self1 fs1))))
      /\ best_acc (self' (run_epochs rest log_data1 self1 fs1)) =
         List.last
           (map ck_test_acc (best_writes evs1) ++
            map ck_test_acc (best_writes (emitted
              (run_epochs rest log_data1 self1 fs1))))
           (best_acc self)).
    { destruct Hbest as [[-> Hsame]|(ck & -> & Hlt & Hnew & Hep)]; simpl.
      - rewrite Hsame in *. split; [|done].
        eapply Forall_impl; [exact Hall2|]. intros ck [? ?].
        split; [done|]. by apply elem_of_cons; right.
      - rewrite Hnew in *. split; [|split].
        + constructor.
          * split; [done|]. rewrite Hep. by apply elem_of_cons; left.
          * eapply Forall_impl; [exact Hall2|]. intros ck0 [? ?].
            split; [by eapply Qclt_trans|]. by apply elem_of_cons; right.
        + constructor; [done|].
          apply Forall_map. eapply Forall_impl; [exact Hall2|].
          by intros ck0 [? _].
        + rewrite Hbest2. symmetry. apply last_cons. }
    destruct Hstep as (H1 & H2 & H3).
    split; [exact H1|]. split; [exact H2|]. split; [exact H3|].
    rewrite Hwl in Hoff2, Hon2.
    destruct (wandb_log self) eqn:Hw.
    + destruct Hlog as [-> ->]. rewrite Hacc. simpl.
      split; [done|]. split.
      { intros _. rewrite lookup_insert_ne, lookup_insert_ne,
          lookup_insert_eq by done. f_equal. by apply Hon2. }
      constructor.
      * rewrite lookup_insert_eq.
        rewrite (lookup_insert_ne _ "lr" "acc"), (lookup_insert_ne _ "loss" "acc"),
          lookup_insert_eq by done.
        rewrite (lookup_insert_ne _ "lr" "loss"), lookup_insert_eq by done.
        repeat split; try by eexists.
        intros k ? ? ?. by rewrite !lookup_insert_ne.
      * eapply Forall_impl; [exact Hkeys2|].
        intros l (? & ? & ? & Hk). repeat split; try done.
        intros k ? ? ?. rewrite Hk by done. by rewrite !lookup_insert_ne.
    + destruct Hlog as [-> ->]. simpl.
      split; [by intros _; apply Hoff2|]. split; [done|]. exact Hkeys2.
Qed.

Lemma apply_writes_other ws : forall fs p,
  Forall (fun w => os_path_join w.1.1 w.1.2 <> p) ws ->
  apply_writes ws fs !! p = fs !! p.
Proof.
  induction ws as [|w ws IH]; intros fs p Hall; [done|].
  apply Forall_cons in Hall as [Hw Hall].
  change (apply_writes (w :: ws) fs)
    with (apply_writes ws (<[os_path_join w.1.1 w.1.2 := File w.2]> fs)).
  rewrite IH by done. by rewrite lookup_insert_ne.
Qed.

(** What a whole run reports. *)
Lemma run_reports log_data self fs :
  let r := run log_data self fs in
  let eps := range (start_epoch self) (EPOCHS (config self)) in
  let cks := best_writes (emitted r) in
  fs' r = apply_writes (checkpoint_writes (emitted r)) fs
  /\ Forall (fun ck => (best_acc self < ck_test_acc ck)%Qc
                       /\ ck_epoch ck ∈ eps) cks
  /\ StronglySorted Qclt (map ck_test_acc cks)
  /\ best_acc (self' r) = List.last (map ck_test_acc cks) (best_acc self)
  /\ (wandb_log self = false -> logged (emitted r) = [])
  /\ (wandb_log self = true ->
      map (fun l => l !! "acc") (logged (emitted r))
      = map Some (observed_accs (emitted r)))
  /\ Forall (fun l =>
       is_Some (l !! "acc") /\ is_Some (l !! "loss") /\ is_Some (l !! "lr")
       /\ forall k, k <> "acc" -> k <> "loss" -> k <> "lr" ->
                    l !! k = log_data !! k) (logged (emitted r)).
Proof.
  cbv zeta. rewrite run_eq.
  destruct (negb (truthy (init_params_path self))
            && bool_decide (STORE_PARAM_BEFORE (config self) = 0)).
  - cbv zeta.
    match goal with
    | |- context [run_epochs ?eps ?l ?t ?f] =>
        pose proof (run_epochs_reports eps l t f) as R;
        set (r2 := run_epochs eps l t f) in *
    end.
    cbv zeta in R. cbn [best_acc wandb_log set_init_params_path] in R.
    destruct R as (Hfs & Hall & Hsort & Hbest & Hoff & Hon & Hkeys).
    rewrite fs_after, self_after, emitted_after.
    rewrite checkpoint_writes_app, best_writes_app, logged_app,
      observed_accs_app, apply_writes_app.
    change (best_writes [_; _; _]) with (@nil Checkpoint).
    change (logged [_; _; _]) with (@nil (gmap string float)).
    change (observed_accs [_; _; _]) with (@nil float).
    by repeat split.
  - apply run_epochs_reports.
Qed.

(** X9: [run] has no file-system effect of its own: every change is a
    checkpoint write it reports.  Afterwards the file system is the one
    before with those writes applied in order, whether the run completed
    or raised, and a path that no reported write names holds what it held
    before. *)
Theorem run_changes_files_only_by_reported_writes log_data self fs :
  let r := run log_data self fs in
  let writes := checkpoint_writes (emitted r) in
  fs' r = apply_writes writes fs
  /\ (forall p,
       Forall (fun w => os_path_join w.1.1 w.1.2 <> p) writes ->
       fs' r !! p = fs !! p).
Proof.
  cbv zeta.
  destruct (run_reports log_data self fs) as (Hfs & _). cbv zeta in Hfs.
  rewrite Hfs. clear Hfs.
  split; [done|]. intros p; apply apply_writes_other.
Qed.

(** X10: the best-model checkpoints of a run get strictly better.  Each
    one records an accuracy above the best accuracy held when [run] was
    entered and the epoch, of the run's range, that reached it; their
    accuracies are strictly increasing in the order they are written; and
    when the run ends (completed or raised) [best_acc] is the accuracy of
    the last one, or unchanged when none was written. *)
Theorem run_best_checkpoints_strictly_improve log_data self fs :
  let r := run log_data self fs in
  let cks := best_writes (emitted r) in
  Forall (fun ck =>
    (best_acc self < ck_test_acc ck)%Qc
    /\ ck_epoch ck ∈ range (start_epoch self) (EPOCHS (config self))) cks
  /\ StronglySorted Qclt (map ck_test_acc cks)
  /\ best_acc (self' r) = List.last (map ck_test_acc cks) (best_acc self).
Proof.
  cbv zeta.
  destruct (run_reports log_data self fs) as (_ & H1 & H2 & H3 & _).
  by repeat split.
Qed.

(** X11: logging.  With [wandb_log] off, [run] hands nothing to the
    logger.  With it on, it logs one record per epoch that reported a
    test accuracy, in order, with that accuracy under "acc"; every record
    has "acc", "loss" and "lr", and carries every other entry of the
    caller's [log_data] unchanged. *)
Theorem run_logs_each_reported_epoch log_data self fs :
  let r := run log_data self fs in
  (wandb_log self = false -> logged (emitted r) = [])
  /\ (wandb_log self = true ->
      map (fun l => l !! "acc") (logged (emitted r))
      = map Some (observed_accs (emitted r)))
  /\ Forall (fun l =>
       is_Some (l !! "acc") /\ is_Some (l !! "loss") /\ is_Some (l !! "lr")
       /\ forall k, k <> "acc" -> k <> "loss" -> k <> "lr" ->
                    l !! k = log_data !! k) (logged (emitted r)).
Proof.
  cbv zeta.
  destruct (run_reports log_data self fs) as (_ & _ & _ & _ & H1 & H2 & H3).
  by repeat split.
Qed.

(** ** The snapshot round trip *)

(** X12: the pruning workflow restores the snapshot.  After
    [save_init_params] and any sequence of training and loading calls
    (returned or raised), a [reset] that returns starts at
    [PRUNE_START_FROM] and gives every parameter the model still has its
    value at the time of the snapshot, provided the parameter is not
    named like an entry of the optimizer's state dict. *)
Theorem reset_restores_snapshot_parameters self0 fs0 cs dir_prefix0
    model_dir0
    (Hok : is_ok (reset dir_prefix0 model_dir0
                    (do_calls cs (self' (save_init_params self0 fs0),
                                  fs' (save_init_params self0 fs0))).1
                    (do_calls cs (self' (save_init_params self0 fs0),
                                  fs' (save_init_params self0 fs0))).2)
                 = true) :
  let r0 := save_init_params self0 fs0 in
  let self1 := (do_calls cs (self' r0, fs' r0)).1 in
  let fs1 := (do_calls cs (self' r0, fs' r0)).2 in
  let r := reset dir_prefix0 model_dir0 self1 fs1 in
  start_epoch (self' r) = PRUNE_START_FROM (config self1)
  /\ dom (model_state_dict (model (self' r)))
     = dom (model_state_dict (model self1))
  /\ forall k v,
       model_state_dict (model self0) !! k = Some v ->
       is_Some (model_state_dict (model self1) !! k) ->
       k <> "state" -> k <> "param_groups" ->
       model_state_dict (model (self' r)) !! k = Some v.
Proof.
  cbv zeta. revert Hok. rewrite save_init_params_eq. cbv zeta.
  cbn [self' fs'].
  set (snapshot := {| ck_state_dict := model_state_dict (model self0);
                      ck_optimizer := optimizer_state_dict (optimizer self0);
                      ck_epoch := STORE_PARAM_BEFORE (config self0) - 1;
                      ck_test_acc := Q2Qc 0 |}).
  set (self_rec := set_init_params_path self0
                     (os_path_join (dir_prefix self0) init_weight_file)).
  set (fs_rec := <[os_path_join (dir_prefix self0) init_weight_file
                   := File snapshot]> fs0).
  assert (Hne : init_params_path self_rec <> "")
    by apply truthy_true, init_path_truthy.
  destruct (do_calls_keep_snapshot cs self_rec fs_rec Hne) as [Hpath Hkeep].
  destruct (do_calls cs (self_rec, fs_rec)) as [self1 fs1].
  cbn [fst snd] in *.
  assert (Hfile : fs1 !! init_params_path self1 = Some (File snapshot)).
  { rewrite Hpath. apply Hkeep. apply lookup_insert_eq. }
  intros Hok.
  destruct (reset_ok_inv _ _ _ _ Hok)
    as [[Htr _]|(ck & Htr & Hfile' & Hload & Heq)].
  { apply truthy_false in Htr. by rewrite Hpath in Htr. }
  cbv zeta in Heq. rewrite Heq, Hfile in *. injection Hfile' as <-.
  cbn [self' start_epoch set_best_model_path set_start_epoch loaded model
       set_model config reset_start].
  split; [reflexivity|].
  unfold loaded_model, snapshot.
  cbn [model_state_dict model reset_start ck_state_dict ck_optimizer].
  rewrite copy_optimizer_state_dict.
  split; [by rewrite dom_copy_tensors|].
  intros k v Hv [m Hm] _ _. by rewrite lookup_copy_saved, Hm, Hv.
Qed.

(** ** Training *)

Lemma train_batches_training batches : forall losses self fs,
  training (model (self' (train_batches batches losses self fs)))
  = training (model self).
Proof.
  induction batches as [|data rest IH]; intros losses self fs; [done|].
  simpl. unfold_M. simpl.
  destruct (train_batch _ _ data) as [[params buffers] loss]. simpl.
  match goal with
  | |- context [train_batches rest ?l ?t ?f] =>
      pose proof (IH l t f) as IH';
      destruct (train_batches rest l t f) as [o1 t1 f1 e1]
  end.
  simpl in *. by destruct o1.
Qed.

(** X13: [train_one_epoch] divides by the number of batches.  It raises
    [ZeroDivisionError] exactly when the train loader is empty, and then
    the only change is the training mode: no parameter and no optimizer
    buffer has moved.  Otherwise it returns a loss.  Either way the model
    is left in training mode, nothing is printed, no file is touched, and
    the best accuracy, the recorded path and the setup are as before. *)
Theorem train_one_epoch_raises_iff_no_batch self fs :
  let r := train_one_epoch self fs in
  (outcome r = inl ZeroDivisionError <-> trainloader self = [])
  /\ (is_ok r = true <-> trainloader self <> [])
  /\ fs' r = fs /\ emitted r = []
  /\ same_setup self (self' r)
  /\ best_acc (self' r) = best_acc self
  /\ init_params_path (self' r) = init_params_path self
  /\ training (model (self' r)) = true
  /\ (trainloader self = [] ->
      model_state_dict (model (self' r)) = model_state_dict (model self)
      /\ optimizer (self' r) = optimizer self).
Proof.
  cbv zeta.
  assert (Htr : training (model (self' (train_one_epoch self fs))) = true).
  { unfold train_one_epoch. unfold_M. simpl.
    match goal with
    | |- context [train_batches ?b ?l ?t ?f] =>
        pose proof (train_batches_training b l t f) as Ht;
        destruct (train_batches b l t f) as [o1 t1 f1 e1]
    end.
    simpl in *. destruct o1 as [x|ls]; simpl; [done|].
    by destruct (decide (length ls = 0%nat)). }
  assert (Hempty : trainloader self = [] ->
            model_state_dict (model (self' (train_one_epoch self fs)))
            = model_state_dict (model self)
            /\ optimizer (self' (train_one_epoch self fs)) = optimizer self).
  { intros Hnil. unfold train_one_epoch. unfold_M. simpl.
    rewrite Hnil. simpl. done. }
  destruct (train_one_epoch_spec self fs) as (m & o & out & Heq & Hcases).
  rewrite Heq in *. unfold is_ok. simpl in *.
  split; [|split].
  - destruct Hcases as [[-> Hnil]|(loss & -> & Hne)]; split; done.
  - destruct Hcases as [[-> Hnil]|(loss & -> & Hne)]; split; done.
  - do 2 (split; [done|]). split; [by repeat split|]. done.
Qed.

(** ** What a run leaves alone *)

(** X14: [run] never moves the start epoch nor touches the configuration,
    the loaders, the directories, the scheduler or the logging flag,
    whether it completes or raises.  A second [run] on the same object
    therefore goes through the same epoch range again. *)
Theorem run_leaves_setup_unchanged log_data self fs :
  let r := run log_data self fs in
  start_epoch (self' r) = start_epoch self
  /\ config (self' r) = config self
  /\ trainloader (self' r) = trainloader self
  /\ testloader (self' r) = testloader self
  /\ dir_prefix (self' r) = dir_prefix self
  /\ model_dir (self' r) = model_dir self
  /\ best_model_path (self' r) = best_model_path self
  /\ lr_scheduler (self' r) = lr_scheduler self
  /\ wandb_log (self' r) = wandb_log self
  /\ forall log_data2,
       let r2 := run log_data2 (self' r) (fs' r) in
       let eps := range (start_epoch self) (EPOCHS (config self)) in
       epochs_started (emitted r2) `prefix_of` eps
       /\ (is_ok r2 = true -> epochs_started (emitted r2) = eps).
Proof.
  cbv zeta.
  pose proof (run_summary log_data self fs) as S. cbv zeta in S.
  destruct S as (Hset & _). unfold same_setup in Hset. destruct_and!.
  repeat split; try done.
  - pose proof (run_summary log_data2 (self' (run log_data self fs))
                  (fs' (run log_data self fs))) as S2. cbv zeta in S2.
    destruct S2 as (_ & _ & Hpre & _). congruence.
  - intros Hk.
    pose proof (run_summary log_data2 (self' (run log_data self fs))
                  (fs' (run log_data self fs))) as S2. cbv zeta in S2.
    destruct S2 as (_ & _ & _ & _ & _ & _ & _ & _ & Hok & _).
    destruct (Hok Hk) as [He _]. congruence.
Qed.

End TrainerFacts.

(** * The claims on concrete runs *)

Section Concrete.

Import Demo.
#[local] Existing Instance demo.

(** The scenario of the spec: accuracies 50, 70, 60 over three epochs give
    best-model checkpoints for epochs 0 and 1, none for epoch 2, and a
    final best accuracy of 70; the init weights are stored first. *)
Example scenario_three_epochs :
  is_ok first_run = true
  /\ map this (observed_accs (emitted first_run)) = [50 # 1; 70 # 1; 60 # 1]%Q
  /\ map (fun w => w.1) (checkpoint_writes (emitted first_run)) =
       [("out", "init_weight.pth.tar");
        ("out/model", "0.pth.tar"); ("out/model", "1.pth.tar")]
  /\ this (best_acc (self' first_run)) = (70 # 1)%Q
  /\ timeline (emitted first_run) =
       [InitWrite; EpochStart 0; EpochTested; EpochStart 1; EpochTested;
        EpochStart 2; EpochTested].
Proof. vm_compute. repeat split. Qed.

(** Partial loading on the keys of the spec: saved {a, b, c}, model
    {b, c, d}. *)
Example partial_load_abc_bcd :
  let r := initialize_params (ObjModel (model bcd_trainer)) abc_saved
             bcd_trainer ∅ in
  outcome r = inr tt
  /\ model_state_dict (model (self' r)) = {["b" := 11; "c" := 12; "d" := 3]}.
Proof. cbv zeta. split; [reflexivity|]. by vm_compute. Qed.

(** An entry that is not a tensor under a key of the model: the load
    raises, and with it [load_params], before the start epoch is
    assigned.  The checkpoint's optimizer state dict has such an entry
    for a model with a parameter named "state". *)
Example load_params_state_parameter_raises :
  let self := set_model (self' demo_trainer) state_model in
  let r := load_params "ckpt.pth.tar" self ck_fs in
  outcome r = inl RuntimeError_load_state_dict
  /\ start_epoch (self' r) = 0
  /\ emitted r = [].
Proof. cbv zeta. by vm_compute. Qed.

(** No directory to make the output directory in: [reset] raises. *)
Example reset_missing_parent_raises :
  outcome (reset "no/such/dir" "pruned" (self' demo_trainer)
             (fs' demo_trainer))
  = inl (FileNotFoundError "no/such/dir/pruned").
Proof. by vm_compute. Qed.

(** C1, on a concrete checkpoint: a fresh trainer loads a checkpoint whose
    optimizer has made 7 steps; [load_params] returns, the model takes the
    saved parameter, and the optimizer is still the fresh one, not the
    checkpoint's. *)
Lemma load_params_drops_checkpoint_optimizer :
  let self := self' demo_trainer in
  let r := load_params "ckpt.pth.tar" self ck_fs in
  outcome r = inr tt
  /\ model_state_dict (model (self' r)) !! "w" = Some 5
  /\ optimizer (self' r) = optimizer self
  /\ optimizer_state_dict (optimizer (self' r)) !! "state"
       = Some (PyOptState 0)
  /\ ck_optimizer demo_ck !! "state" = Some (PyOptState 7)
  /\ optimizer_state_dict (optimizer (self' r)) <> ck_optimizer demo_ck.
Proof.
  cbv zeta. split; [by vm_compute|]. split; [by vm_compute|].
  split; [apply load_params_keeps_optimizer|].
  split; [by vm_compute|]. split; [by vm_compute|].
  intros Heq. apply (f_equal (fun d => d !! "state")) in Heq.
  vm_compute in Heq. discriminate.
Qed.

(** C3 as stated fails: in the pruning workflow the run after [reset]
    completes and writes no init-weights checkpoint, because the path of
    the first run's snapshot is recorded. *)
Lemma run_after_reset_writes_no_init_weights :
  is_ok run_after_reset = true
  /\ init_params_path (self' demo_reset) = "out/init_weight.pth.tar"
  /\ init_writes (emitted run_after_reset) = 0%nat
  /\ init_writes (emitted run_after_reset) <> 1%nat.
Proof. by vm_compute. Qed.

(** C4 as stated fails: a second [run] on the same object completes over
    epochs 0..2, observes accuracy 0 in each, and leaves the best accuracy
    at the 70 of the first run: every accuracy it observed is strictly
    below [best_acc], which therefore is not their maximum. *)
Lemma second_run_best_acc_not_observed :
  is_ok second_run = true
  /\ epochs_started (emitted second_run) = [0; 1; 2]
  /\ map this (observed_accs (emitted second_run)) = [0 # 1; 0 # 1; 0 # 1]%Q
  /\ this (best_acc (self' second_run)) = (70 # 1)%Q
  /\ Forall (fun a => (a < best_acc (self' second_run))%Qc)
       (observed_accs (emitted second_run))
  /\ ~ best_acc (self' second_run) ∈ observed_accs (emitted second_run).
Proof.
  assert (Hlt : Forall (fun a => (a < best_acc (self' second_run))%Qc)
                  (observed_accs (emitted second_run))).
  { vm_compute. repeat constructor. }
  do 4 (split; [by vm_compute|]). split; [exact Hlt|].
  intros Hin. rewrite Forall_forall in Hlt. apply Hlt in Hin.
  by apply Qclt_not_eq in Hin.
Qed.

(** C9 as stated fails, twice.  [reset] after the first run completes
    with start epoch [PRUNE_START_FROM = 2], not 0.  And a [reset] whose
    output path is a regular file completes and leaves the file there:
    no output directory exists. *)
Lemma reset_keeps_neither_start_epoch_nor_directory :
  (is_ok demo_reset = true
   /\ start_epoch (self' demo_reset) = 2
   /\ start_epoch (self' demo_reset) <> 0)
  /\ (let r := reset "out" "model" (self' demo_trainer) file_fs in
      is_ok r = true
      /\ fs' r !! os_path_join "out" "model" = Some (File demo_ck)
      /\ fs' r !! os_path_join "out" "model" <> Some Dir).
Proof.
  split; [by vm_compute|]. cbv zeta.
  assert (Hok : is_ok (reset "out" "model" (self' demo_trainer) file_fs)
                = true) by (vm_compute; reflexivity).
  assert (Hfile : file_fs !! os_path_join "out" "model"
                  = Some (File demo_ck)) by apply lookup_insert_eq.
  assert (H : fs' (reset "out" "model" (self' demo_trainer) file_fs)
              !! os_path_join "out" "model" = Some (File demo_ck)).
  { rewrite (reset_ok_fs _ _ _ _ Hok). cbv zeta.
    by apply output_path_after. }
  split; [exact Hok|]. split; [exact H|]. by rewrite H.
Qed.




(** A run of the trainer without training batches raises. *)
Lemma empty_loader_raises_witness :
  trainloader (self' no_batches) = []
  /\ outcome (run ∅ (self' no_batches) (fs' no_batches))
     = inl ZeroDivisionError.
Proof.
  assert (H : trainloader (self' no_batches) = []) by reflexivity.
  split; [exact H|].
  apply (proj2 (proj2 (proj2
    (empty_loader_raises (self' no_batches) (fs' no_batches))))).
  - vm_compute. reflexivity.
  - left. exact H.
Defined.

(** [reset] after the first run completes; the snapshot is loaded again
    and the new output directory is made. *)
Lemma reset_completes_witness :
  is_ok demo_reset = true
  /\ best_acc (self' demo_reset) = Q2Qc 0
  /\ start_epoch (self' demo_reset) = PRUNE_START_FROM demo_config
  /\ os_path_exists (fs' demo_reset) (os_path_join "out" "pruned") = true.
Proof.
  assert (H : is_ok (reset "out" "pruned" (self' first_run) (fs' first_run))
              = true) by (vm_compute; reflexivity).
  split; [exact H|].
  pose proof (reset_completes "out" "pruned" (self' first_run)
                (fs' first_run) H) as R.
  cbv zeta in R.
  destruct R as (Hbest & Hstart & _ & _ & _ & _ & _ & Hex & _).
  split; [exact Hbest|]. split; [exact Hstart|exact Hex].
Defined.


(** The best-model checkpoints of the first run are those of epochs 0
    and 1, with accuracies 50 and 70; nothing is logged without wandb. *)
Example first_run_best_checkpoints :
  map ck_epoch (best_writes (emitted first_run)) = [0; 1]
  /\ map (fun ck => this (ck_test_acc ck)) (best_writes (emitted first_run))
     = [50 # 1; 70 # 1]%Q
  /\ logged (emitted first_run) = [].
Proof. vm_compute. repeat split. Qed.

(** No file at all: [load_params] leaves the fresh trainer as it is. *)
Lemma load_without_file_witness :
  (∅ : gmap string node) !! "nowhere.pth.tar" = None
  /\ self' (load_params "nowhere.pth.tar" (self' demo_trainer) ∅)
     = self' demo_trainer
  /\ self' (load_init_params "nowhere.pth.tar" (self' demo_trainer) ∅)
     = self' demo_trainer.
Proof.
  split; [apply lookup_empty|].
  assert (H : forall ck, (∅ : gmap string node) !! "nowhere.pth.tar"
                         <> Some (File ck))
    by (intros ck; rewrite lookup_empty; discriminate).
  pose proof (load_without_file_changes_nothing "nowhere.pth.tar"
                (self' demo_trainer) ∅ H) as R.
  cbv zeta in R. destruct R as (_ & Hself & _ & _ & _ & Hinit & _).
  split; [exact Hself|exact Hinit].
Defined.


(** The recorded snapshot is not on an empty file system: [reset] raises
    with the start epoch at 0 and the old best-model path. *)
Lemma reset_without_snapshot_witness :
  init_params_path recorded = "out/init_weight.pth.tar"
  /\ is_ok (reset "out" "pruned" recorded ∅) = false
  /\ start_epoch (self' (reset "out" "pruned" recorded ∅)) = 0
  /\ best_model_path (self' (reset "out" "pruned" recorded ∅))
     = best_model_path recorded.
Proof.
  assert (Hp : init_params_path recorded = "out/init_weight.pth.tar")
    by reflexivity.
  assert (Hrec : init_params_path recorded <> "")
    by (rewrite Hp; discriminate).
  assert (H : forall ck, (∅ : gmap string node) !! init_params_path recorded
                         <> Some (File ck))
    by (intros ck; rewrite lookup_empty; discriminate).
  pose proof (reset_without_snapshot_file "out" "pruned" recorded ∅ Hrec H)
    as R.
  cbv zeta in R.
  destruct R as (Hout & _ & _ & _ & _ & Hstart & _ & _ & _ & _ & Hbest & _).
  split; [exact Hp|]. split; [|split; [exact Hstart|exact Hbest]].
  unfold is_ok. by destruct Hout as [-> | ->].
Defined.

(** [reset] from the recorded snapshot, twice. *)
Lemma reset_twice_witness :
  is_ok recorded_reset = true
  /\ reset "out" "pruned" (self' recorded_reset) (fs' recorded_reset) =
     mkRes (inr tt) (self' recorded_reset) (fs' recorded_reset)
       (emitted recorded_reset).
Proof.
  assert (H : is_ok (reset "out" "pruned" recorded recorded_fs) = true)
    by (vm_compute; reflexivity).
  split; [exact H|].
  exact (reset_twice_is_reset "out" "pruned" recorded recorded_fs H).
Defined.

(** A finished training: [run] starts no epoch. *)
Lemma run_with_no_epoch_left_witness :
  EPOCHS (config finished) <= start_epoch finished
  /\ outcome (run ∅ finished (fs' demo_trainer)) = inr tt
  /\ epochs_started (emitted (run ∅ finished (fs' demo_trainer))) = []
  /\ init_writes (emitted (run ∅ finished (fs' demo_trainer))) = 1%nat.
Proof.
  assert (H : EPOCHS (config finished) <= start_epoch finished)
    by (vm_compute; discriminate).
  split; [exact H|].
  pose proof (run_with_no_epoch_left ∅ finished (fs' demo_trainer) H) as R.
  cbv zeta in R. destruct R as (Hout & Heps & _ & _ & _ & _ & Hstore & _).
  split; [exact Hout|]. split; [exact Heps|].
  exact (proj1 (Hstore eq_refl)).
Defined.

(** The demo trainer is constructed: start epoch 0, output path made. *)
Lemma init_witness :
  is_ok demo_trainer = true
  /\ start_epoch (self' demo_trainer) = 0
  /\ os_path_exists (fs' demo_trainer) (os_path_join "out" "model") = true.
Proof.
  assert (H : is_ok (init demo_model demo_train demo_test demo_config
                       "out" "model" false demo_fs) = true) by reflexivity.
  split; [exact H|].
  pose proof (init_gives_fresh_trainer demo_model demo_train demo_test
                demo_config "out" "model" false demo_fs H) as R.
  cbv zeta in R.
  destruct R as (_ & Hstart & _ & _ & _ & _ & _ & _ & Hex & _).
  split; [exact Hstart|exact Hex].
Defined.

(** Snapshot, one training epoch, [reset]: the parameter is back at 0. *)
Lemma reset_restores_snapshot_witness :
  is_ok (reset "out" "pruned" restore_state.1 restore_state.2) = true
  /\ model_state_dict (model restore_state.1) !! "w" = Some 2
  /\ model_state_dict
       (model (self' (reset "out" "pruned" restore_state.1 restore_state.2)))
       !! "w" = Some 0.
Proof.
  assert (H : is_ok (reset "out" "pruned" restore_state.1 restore_state.2)
              = true) by (vm_compute; reflexivity).
  assert (Hw : model_state_dict (model restore_state.1) !! "w"
               = Some 2) by (vm_compute; reflexivity).
  split; [exact H|]. split; [exact Hw|].
  pose proof (reset_restores_snapshot_parameters (self' demo_trainer)
                (fs' demo_trainer) [CallTrainOneEpoch] "out" "pruned" H) as R.
  cbv zeta in R. destruct R as (_ & _ & Hrestore).
  apply Hrestore.
  - reflexivity.
  - eexists. exact Hw.
  - discriminate.
  - discriminate.
Defined.

End Concrete.
